(** * IONQ price import scripts: a shallow embedding

    The repository holds four stand-alone scripts that read one CSV file of
    daily prices.  Two of them push the rows to an InfluxDB bucket
    ([import_ionq.py], [import_ionq_to_influx.py]), one stores them in a
    SQLite table ([analyze_ionq_local.py]) and one exports them as JSON
    ([prepare_data.py]).

    The scripts are embedded as functions of a small state-and-exception
    monad.  What the scripts own (the row loop, the batching, the order of
    the conversions, the calls made to the client) is written out; what
    they call into (text parsing by Python and pandas, numpy casts, the
    database server) is an interface with a documented model. *)

From Stdlib Require Import ZArith Ascii String PrimFloat FloatOps SpecFloat.
From stdpp Require Import gmap strings list.

Local Open Scope Z_scope.

(** ** Python values and exceptions *)

Module Py.

(** The exceptions the scripts can die with.  None of them is caught
    anywhere in the repository. *)
Inductive exn :=
| KeyError (key : string)
| ValueError
| OverflowError
| TypeError
| ApiException          (* influxdb_client: the request failed *)
| OperationalError.     (* sqlite3: the statement failed *)

Inductive result (A : Type) :=
| Ok (a : A)
| Raise (e : exn).
Arguments Ok {A} a.
Arguments Raise {A} e.

#[global] Instance result_ret : MRet result := fun A a => Ok a.
#[global] Instance result_bind : MBind result := fun A B f r =>
  match r with
  | Ok a => f a
  | Raise e => Raise e
  end.
#[global] Instance result_fmap : FMap result := fun A B f r =>
  match r with
  | Ok a => Ok (f a)
  | Raise e => Raise e
  end.

Definition is_ok {A} (r : result A) : bool :=
  match r with Ok _ => true | Raise _ => false end.


(** The first failure wins, as in a [for] loop that converts in order. *)
Fixpoint mapM {A B} (f : A -> result B) (l : list A) : result (list B) :=
  match l with
  | [] => Ok []
  | a :: l' => b ← f a; bs ← mapM f l'; mret (b :: bs)
  end.

(** One cell of a data frame, as [pandas.read_csv] hands it over. *)
Inductive cell :=
| VInt (z : Z)          (* numpy.int64 *)
| VFloat (x : float)    (* numpy.float64; NaN is an empty cell *)
| VStr (s : string)     (* object column: the text of the cell *)
| VTime (t : Z).        (* pandas.Timestamp, nanoseconds since the epoch *)

(** Text parsing and column casts done by Python, pandas and numpy.
    [to_datetime] covers the cells that [pd.to_datetime] turns into a
    Timestamp or rejects; a missing date (an empty cell, which pandas
    turns into [NaT] without raising) has no counterpart here, so frames
    with such a cell in the Date column are outside what follows. *)
Class Runtime := {
  float_of_str : string -> option float;  (* float(s), None on ValueError *)
  int_of_str : string -> option Z;        (* int(s), None on ValueError *)
  to_datetime : cell -> result Z;         (* pd.to_datetime, one element *)
  astype_float : cell -> result float;    (* Series.astype(float), one element *)
  astype_int : cell -> result Z           (* Series.astype(int), one element *)
}.

(** [float(n)] for an integer: round to nearest even, [OverflowError]
    when the integer is beyond the binary64 range. *)
Definition float_of_Z (z : Z) : result float :=
  let x := SF2Prim (binary_normalize prec emax z 0 false) in
  if is_infinity x then Raise OverflowError else Ok x.

(** [int(x)] for a float: truncation toward zero. *)
Definition Z_of_float (x : float) : result Z :=
  match Prim2SF x with
  | S754_zero _ => Ok 0
  | S754_finite s m e =>
      let v := match e with
               | Zneg p => Z.shiftr (Zpos m) (Zpos p)
               | _ => Z.shiftl (Zpos m) e
               end in
      Ok (if s then - v else v)
  | S754_infinity _ => Raise OverflowError
  | S754_nan => Raise ValueError
  end.

Section Conversions.
Context {R : Runtime}.

(** The builtin [float(v)]. *)
Definition py_float (v : cell) : result float :=
  match v with
  | VInt z => float_of_Z z
  | VFloat x => Ok x
  | VStr s => match float_of_str s with
              | Some x => Ok x
              | None => Raise ValueError
              end
  | VTime _ => Raise TypeError
  end.

(** The builtin [int(v)]. *)
Definition py_int (v : cell) : result Z :=
  match v with
  | VInt z => Ok z
  | VFloat x => Z_of_float x
  | VStr s => match int_of_str s with
              | Some z => Ok z
              | None => Raise ValueError
              end
  | VTime _ => Raise TypeError
  end.
End Conversions.

End Py.
Export Py.

(** ** pandas data frames *)

Module Pandas.

(** A frame keeps its header and its rows; a row shorter than the header
    reads as NaN in the missing places, as [read_csv] pads it. *)
Record DataFrame := {
  columns : list string;
  values : list (list cell)
}.

(** A row as [iterrows] yields it: the header and the row's cells. *)
Record Series := {
  s_index : list string;
  s_data : list cell
}.

Fixpoint get_loc (key : string) (cols : list string) : option nat :=
  match cols with
  | [] => None
  | c :: cols' => if String.eqb c key then Some 0%nat
                  else S <$> get_loc key cols'
  end.

Definition at_pos (i : nat) (r : list cell) : cell :=
  default (VFloat nan) (r !! i).

(** [row[key]] *)
Definition row_getitem (row : Series) (key : string) : result cell :=
  match get_loc key (s_index row) with
  | Some i => Ok (at_pos i (s_data row))
  | None => Raise (KeyError key)
  end.

(** [df[key]] *)
Definition df_getitem (df : DataFrame) (key : string) : result (list cell) :=
  match get_loc key (columns df) with
  | Some i => Ok (at_pos i <$> values df)
  | None => Raise (KeyError key)
  end.

Fixpoint put_pos (i : nat) (v : cell) (r : list cell) : list cell :=
  match i, r with
  | O, [] => [v]
  | O, _ :: r' => v :: r'
  | S i', [] => VFloat nan :: put_pos i' v []
  | S i', c :: r' => c :: put_pos i' v r'
  end.

(** [df[key] = col], for a column of the frame's length: an existing
    column is overwritten in place, a new one is appended. *)
Definition df_setitem (df : DataFrame) (key : string) (col : list cell)
  : DataFrame :=
  match get_loc key (columns df) with
  | Some i =>
      {| columns := columns df;
         values := zip_with (put_pos i) col (values df) |}
  | None =>
      {| columns := columns df ++ [key];
         values := zip_with (put_pos (length (columns df))) col (values df) |}
  end.

(** [enumerate(l, start)] *)
Fixpoint enumerate {A} (start : nat) (l : list A) : list (nat * A) :=
  match l with
  | [] => []
  | a :: l' => (start, a) :: enumerate (S start) l'
  end.

Definition rows (df : DataFrame) : list Series :=
  (fun r => {| s_index := columns df; s_data := r |}) <$> values df.

(** [df.iterrows()]: index label and row, top to bottom; [read_csv]
    labels the rows 0, 1, 2, ...  The frames the scripts iterate hold a
    Timestamp column, so a row is an object Series and its cells keep
    their own types. *)
Definition iterrows (df : DataFrame) : list (nat * Series) :=
  enumerate 0 (rows df).

Definition len (df : DataFrame) : nat := length (values df).

End Pandas.
Export Pandas.

(** ** The InfluxDB client and the server behind it *)

Module Influx.

Inductive field_value :=
| FFloat (x : float)
| FInt (z : Z).

(** [influxdb_client.Point]: a measurement name, the time it was given
    (whatever object that was) and a dictionary of fields in insertion
    order. *)
Record Point := {
  p_name : string;
  p_time : option cell;
  p_fields : list (string * field_value)
}.

Fixpoint dict_set {V} (k : string) (v : V) (d : list (string * V))
  : list (string * V) :=
  match d with
  | [] => [(k, v)]
  | (k', v') :: d' =>
      if String.eqb k' k then (k, v) :: d' else (k', v') :: dict_set k v d'
  end.

(** [Point(name)] *)
Definition new_point (name : string) : Point :=
  {| p_name := name; p_time := None; p_fields := [] |}.

(** [.time(t)] *)
Definition time (t : cell) (p : Point) : Point :=
  {| p_name := p_name p; p_time := Some t; p_fields := p_fields p |}.

(** [.field(k, v)] *)
Definition field (k : string) (v : field_value) (p : Point) : Point :=
  {| p_name := p_name p; p_time := p_time p;
     p_fields := dict_set k v (p_fields p) |}.

(** A series point is identified by bucket, measurement and timestamp
    (the scripts use no tags). *)
Definition key : Type := string * string * Z.

(** The server as the scripts see it.  [store] is the bucket contents,
    [calls] the write requests it accepted (oldest first), [attempts]
    the write requests it received, [queries] the queries it received,
    [outages] the fate of the requests to come, writes and queries
    alike ([true]: the request fails; past the end of the list every
    request is accepted), and [[since, now)] the time range that the
    Flux expression [range(start: -5y)] denotes. *)
Record Sink := {
  store : gmap key (gmap string field_value);
  calls : list (string * list Point);
  attempts : nat;
  queries : nat;
  outages : list bool;
  since : Z;
  now : Z
}.

Section Client.
Context {R : Runtime}.

(** Serialising a point's time: Timestamps and integers are taken as
    they are, text is parsed, a point without time is stamped by the
    server, anything else is refused by the client. *)
Definition timestamp_of (s : Sink) (p : Point) : result Z :=
  match p_time p with
  | None => Ok (now s)
  | Some (VTime t) => Ok t
  | Some (VInt z) => Ok z
  | Some (VStr str) => to_datetime (VStr str)
  | Some (VFloat _) => Raise ValueError
  end.

(** The client leaves float fields that are NaN or infinite out of what
    it sends. *)
Definition storable (kv : string * field_value) : bool :=
  match kv.2 with
  | FFloat x => is_finite x
  | FInt _ => true
  end.

(** A point written over an existing one with the same key replaces
    the fields it carries and leaves the others; a point with no field
    to send is skipped. *)
Definition put_point (bucket : string)
    (st : gmap key (gmap string field_value)) (tp : Z * Point)
  : gmap key (gmap string field_value) :=
  let k := (bucket, p_name tp.2, tp.1) in
  match List.filter storable (p_fields tp.2) with
  | [] => st
  | fs => <[k := list_to_map fs ∪ default ∅ (st !! k)]> st
  end.

(** [write_api.write(bucket=..., record=points)] in synchronous mode:
    one request for the whole record, accepted or refused as a whole. *)
Definition write (bucket : string) (record : list Point) (s : Sink)
  : result unit * Sink :=
  match mapM (timestamp_of s) record with
  | Raise e => (Raise e, s)
  | Ok ts =>
      match outages s with
      | true :: later =>
          (Raise ApiException,
           {| store := store s; calls := calls s;
              attempts := S (attempts s); queries := queries s;
              outages := later;
              since := since s; now := now s |})
      | later =>
          (Ok tt,
           {| store := foldl (put_point bucket) (store s) (zip ts record);
              calls := calls s ++ [(bucket, record)];
              attempts := S (attempts s); queries := queries s;
              outages := tail later;
              since := since s; now := now s |})
      end
  end.
End Client.

(** The Flux query of both scripts:
    [from(bucket) |> range(start: -5y) |> filter(_measurement == "ionq_stock")
     |> filter(_field == "close") |> last()].
    There is one series, so the answer holds at most one record: the
    point of greatest timestamp within the range. *)
Definition close_in_range (bucket : string) (s : Sink)
    (kv : key * gmap string field_value) : option (Z * field_value) :=
  let '((b, m, t), fs) := kv in
  if String.eqb b bucket && String.eqb m "ionq_stock"
     && (since s <=? t) && (t <? now s)
  then v ← fs !! "close"; Some (t, v)
  else None.

Definition later (a b : Z * field_value) : Z * field_value :=
  if a.1 <? b.1 then b else a.

Definition query_last_close (bucket : string) (s : Sink)
  : list (Z * field_value) :=
  match omap (close_in_range bucket s) (map_to_list (store s)) with
  | [] => []
  | r :: rs => [foldl later r rs]
  end.

(** The server after it received a query, answered or not: a query is
    one of the requests whose fate [outages] holds, and stores nothing. *)
Definition asked (s : Sink) : Sink :=
  {| store := store s; calls := calls s; attempts := attempts s;
     queries := S (queries s); outages := tail (outages s);
     since := since s; now := now s |}.

(** [query_api.query(query)]: one request; the client raises when the
    server does not answer it. *)
Definition query (bucket : string) (s : Sink)
  : result (list (Z * field_value)) * Sink :=
  match outages s with
  | true :: _ => (Raise ApiException, asked s)
  | _ => (Ok (query_last_close bucket s), asked s)
  end.

End Influx.
Export Influx.

(** ** Scripts as computations over the server and the terminal *)

Module Script.

(** The lines the two import scripts print, one constructor for each
    kind of line; the same kind of line differs between the scripts in
    its wording only. *)
Inductive message :=
| MsgReading (path : string)
| MsgFound (n : nat)
| MsgLoading (n : nat)
| MsgImported (n : nat)
| MsgSuccess (n : nat)
| MsgLastClose (v : field_value) (t : Z).

Record World := {
  sink : Sink;
  stdout : list message
}.

(** A statement either completes or raises; what it did to the world
    so far stays done in both cases. *)
Definition M (A : Type) : Type := World -> result A * World.

#[global] Instance M_ret : MRet M := fun A a w => (Ok a, w).
#[global] Instance M_bind : MBind M := fun A B f m w =>
  match m w with
  | (Ok a, w') => f a w'
  | (Raise e, w') => (Raise e, w')
  end.

Definition lift {A} (r : result A) : M A := fun w => (r, w).

Definition print (msg : message) : M unit := fun w =>
  (Ok tt, {| sink := sink w; stdout := stdout w ++ [msg] |}).

Definition write_api_write `{Runtime} (bucket : string)
    (record : list Point) : M unit := fun w =>
  let (r, s) := write bucket record (sink w) in
  (r, {| sink := s; stdout := stdout w |}).

Definition query_api_query (bucket : string) : M (list (Z * field_value)) :=
  fun w =>
    let (r, s) := query bucket (sink w) in
    (r, {| sink := s; stdout := stdout w |}).

Fixpoint for_each {A} (l : list A) (body : A -> M unit) : M unit :=
  match l with
  | [] => mret tt
  | a :: l' => body a;; for_each l' body
  end.

Section Rows.
Context {R : Runtime}.

(** The [Point(...)] expression shared by both import scripts, its
    sub-expressions evaluated left to right. *)
Definition build_point (row : Series) : result Point :=
  d ← row_getitem row "Date";
  o ← row_getitem row "Open" ≫= py_float;
  h ← row_getitem row "High" ≫= py_float;
  l ← row_getitem row "Low" ≫= py_float;
  c ← row_getitem row "Close" ≫= py_float;
  v ← row_getitem row "Volume" ≫= py_int;
  mret (field "volume" (FInt v)
         (field "close" (FFloat c)
           (field "low" (FFloat l)
             (field "high" (FFloat h)
               (field "open" (FFloat o)
                 (time d (new_point "ionq_stock"))))))).

(** [df['Date'] = pd.to_datetime(df['Date'])] *)
Definition convert_dates (df : DataFrame) : result DataFrame :=
  col ← df_getitem df "Date";
  ts ← mapM to_datetime col;
  mret (df_setitem df "Date" (VTime <$> ts)).
End Rows.

End Script.
Export Script.


(** ** What a run does, as a list of actions

    The conversions of a run do not depend on the server, so a run can be
    split into the list of things it does to the world (requests sent,
    lines printed) and the exception, if any, that ends it. *)

Module Trace.

Inductive action :=
| Send (bucket : string) (record : list Point)
| Say (msg : message).

Definition sends (acts : list action) : list (string * list Point) :=
  omap (fun a => match a with Send b r => Some (b, r) | Say _ => None end) acts.

Definition says (acts : list action) : list message :=
  omap (fun a => match a with Say m => Some m | Send _ _ => None end) acts.

(** The points of the first rows, up to the first row whose [Point]
    expression raises, and that exception. *)
Fixpoint convert_rows `{Runtime} (l : list Series) : list Point * option exn :=
  match l with
  | [] => ([], None)
  | row :: l' =>
      match build_point row with
      | Raise e => ([], Some e)
      | Ok p => let (ps, e) := convert_rows l' in (p :: ps, e)
      end
  end.

(** A point whose time is a Timestamp, and that Timestamp. *)
Definition stamped (p : Point) : Prop := exists t, p_time p = Some (VTime t).

Definition stamp (p : Point) : Z :=
  match p_time p with Some (VTime t) => t | _ => 0 end.

Definition stamped_sends (acts : list action) : Prop :=
  Forall (fun br => Forall stamped br.2) (sends acts).

Section Perform.
Context {R : Runtime}.

Fixpoint perform (acts : list action) : M unit :=
  match acts with
  | [] => mret tt
  | Send b r :: acts' => write_api_write b r;; perform acts'
  | Say m :: acts' => print m;; perform acts'
  end.

(** The server after it accepted a request. *)
Definition accept (b : string) (r : list Point) (s : Sink) : Sink :=
  {| store := foldl (fun st p => put_point b st (stamp p, p)) (store s) r;
     calls := calls s ++ [(b, r)];
     attempts := S (attempts s);
     queries := queries s;
     outages := tail (outages s);
     since := since s; now := now s |}.

(** The server after it refused a request. *)
Definition refuse (s : Sink) : Sink :=
  {| store := store s; calls := calls s;
     attempts := S (attempts s);
     queries := queries s;
     outages := tail (outages s);
     since := since s; now := now s |}.

Definition effect (w : World) (a : action) : World :=
  match a with
  | Send b r => {| sink := accept b r (sink w); stdout := stdout w |}
  | Say m => {| sink := sink w; stdout := stdout w ++ [m] |}
  end.

(** No request among the next [n] is scheduled to fail. *)
Definition calm (n : nat) (s : Sink) : Prop :=
  Forall (fun b => b = false) (take n (outages s)).

(** The bucket contents after the actions: every point of every request,
    in the order sent, put on top of what was there. *)
Definition put_all (st : gmap key (gmap string field_value))
    (reqs : list (string * list Point)) : gmap key (gmap string field_value) :=
  foldl (fun st br =>
           foldl (fun st p => put_point br.1 st (stamp p, p)) st br.2) st reqs.

(** The line printed for a record the query returned. *)
Definition echo (r : Z * field_value) : message := MsgLastClose r.2 r.1.

(** How a run ends after its actions: with the exception that cut it
    short, or else with the rest of the script. *)
Definition finish (e : option exn) (rest : M unit) : M unit :=
  match e with
  | Some e => lift (Raise e)
  | None => rest
  end.

(** What the script returns to the interpreter. *)
Definition outcome (e : option exn) : result unit :=
  match e with
  | Some e => Raise e
  | None => Ok tt
  end.

(** The requests of a run: its write requests and, when it gets that
    far, the query of the verification block. *)
Definition requests (acts : list action) (e : option exn) : nat :=
  (length (sends acts) + match e with Some _ => 0 | None => 1 end)%nat.

(** The world after the verification block ran in [w] and the server
    answered its query. *)
Definition after_read_back (bucket : string) (w : World) : World :=
  {| sink := asked (sink w);
     stdout := stdout w ++ (echo <$> query_last_close bucket (sink w)) |}.

(** The world a run leaves that did [acts] and ended with [e]. *)
Definition final_world (bucket : string) (acts : list action)
    (e : option exn) (w : World) : World :=
  match e with
  | Some _ => foldl effect w acts
  | None => after_read_back bucket (foldl effect w acts)
  end.

(** The verification block that closes both import scripts. *)
Definition read_back (bucket : string) : M unit :=
  result ← query_api_query bucket;
  for_each result (fun record => print (MsgLastClose record.2 record.1)).

(** The points a run builds from a frame before the first conversion
    that raises, and that exception. *)
Definition points_of (df : DataFrame) : list Point * option exn :=
  match convert_dates df with
  | Raise e => ([], Some e)
  | Ok df' => convert_rows (rows df')
  end.
End Perform.

End Trace.
Import Trace.

(** ** import_ionq_to_influx.py *)

Module ImportIonqToInflux.

Definition INFLUX_BUCKET : string := "stock_data".
Definition CSV_FILE : string := "C:\ANFA\IONQ_historical.csv".

Section Run.
Context {R : Runtime}.

(** The [for index, row in df.iterrows()] loop; [points] is the
    buffer the loop carries from one row to the next. *)
Fixpoint import_rows (rows : list (nat * Series)) (points : list Point)
  : M (list Point) :=
  match rows with
  | [] => mret points
  | (index, row) :: rows' =>
      point ← lift (build_point row);
      let points := points ++ [point] in
      if (1000 <=? length points)%nat then
        write_api_write INFLUX_BUCKET points;;
        print (MsgImported (index + 1));;
        import_rows rows' []
      else
        import_rows rows' points
  end.

(** [df] is the frame [pd.read_csv(CSV_FILE)] returned. *)
Definition import_csv_to_influxdb (df : DataFrame) : M unit :=
  print (MsgReading CSV_FILE);;
  df ← lift (convert_dates df);
  print (MsgFound (len df));;
  points ← import_rows (iterrows df) [];
  (if bool_decide (points = []) then mret tt
   else write_api_write INFLUX_BUCKET points);;
  print (MsgSuccess (len df));;
  result ← query_api_query INFLUX_BUCKET;
  for_each result (fun record => print (MsgLastClose record.2 record.1)).

(** The actions of the row loop over rows that convert to [ps], and
    the buffer the loop ends with. *)
Fixpoint loop_trace (index : nat) (points ps : list Point)
  : list action * list Point :=
  match ps with
  | [] => ([], points)
  | point :: ps' =>
      let points := points ++ [point] in
      if (1000 <=? length points)%nat then
        let (acts, buf) := loop_trace (S index) [] ps' in
        (Send INFLUX_BUCKET points :: Say (MsgImported (index + 1)) :: acts,
         buf)
      else loop_trace (S index) points ps'
  end.

Definition flush_trace (points : list Point) : list action :=
  if bool_decide (points = []) then [] else [Send INFLUX_BUCKET points].

(** The actions of a whole run up to the verification block, and the
    exception that ends the run early, if any. *)
Definition dry_run (df : DataFrame) : list action * option exn :=
  match convert_dates df with
  | Raise e => ([Say (MsgReading CSV_FILE)], Some e)
  | Ok df' =>
      let (ps, e) := convert_rows (rows df') in
      let (acts, buf) := loop_trace 0 [] ps in
      let start := [Say (MsgReading CSV_FILE); Say (MsgFound (len df'))] in
      match e with
      | Some _ => (start ++ acts, e)
      | None => (start ++ acts ++ flush_trace buf ++ [Say (MsgSuccess (len df'))],
                 None)
      end
  end.

(** The full batches the row loop sends. *)
Definition full_batches (ps : list Point) : list (list Point) :=
  (sends (loop_trace 0 [] ps).1).*2.

(** The batches a run sends when nothing fails. *)
Definition batches (ps : list Point) : list (list Point) :=
  let (acts, buf) := loop_trace 0 [] ps in
  (sends (acts ++ flush_trace buf)).*2.
End Run.

End ImportIonqToInflux.

(** ** import_ionq.py *)

Module ImportIonq.

Definition BUCKET : string := "stocks".

Section Run.
Context {R : Runtime}.

Fixpoint import_rows (rows : list (nat * Series)) (count : nat) : M unit :=
  match rows with
  | [] => mret tt
  | (index, row) :: rows' =>
      point ← lift (build_point row);
      write_api_write BUCKET [point];;
      let count := (count + 1)%nat in
      (if (count mod 100 =? 0)%nat then print (MsgImported count)
       else mret tt);;
      import_rows rows' count
  end.

(** The module body; [df] is the frame [pd.read_csv] returned. *)
Definition main (df : DataFrame) : M unit :=
  df ← lift (convert_dates df);
  print (MsgLoading (len df));;
  import_rows (iterrows df) 0%nat;;
  print (MsgSuccess (len df));;
  result ← query_api_query BUCKET;
  for_each result (fun record => print (MsgLastClose record.2 record.1)).

(** The actions of the row loop over rows that convert to [ps]. *)
Fixpoint loop_trace (count : nat) (ps : list Point) : list action :=
  match ps with
  | [] => []
  | point :: ps' =>
      let count := (count + 1)%nat in
      Send BUCKET [point]
      :: (if (count mod 100 =? 0)%nat then [Say (MsgImported count)] else [])
      ++ loop_trace count ps'
  end.

Definition dry_run (df : DataFrame) : list action * option exn :=
  match convert_dates df with
  | Raise e => ([], Some e)
  | Ok df' =>
      let (ps, e) := convert_rows (rows df') in
      let acts := Say (MsgLoading (len df')) :: loop_trace 0 ps in
      match e with
      | Some _ => (acts, e)
      | None => (acts ++ [Say (MsgSuccess (len df'))], None)
      end
  end.
End Run.

End ImportIonq.

(** ** analyze_ionq_local.py, lines 13 to 27: load, coerce, store *)

Module AnalyzeIonqLocal.

(** The SQLite file: its tables by name.  A table is kept as the frame
    that was stored. *)
Definition Database : Type := gmap string DataFrame.

(** The [if_exists] argument of [DataFrame.to_sql]. *)
Inductive if_exists := Fail | Replace | Append.

(** [df.to_sql(name, conn, if_exists=..., index=False)] *)
Definition to_sql (name : string) (df : DataFrame) (mode : if_exists)
    (db : Database) : result unit * Database :=
  match db !! name, mode with
  | None, _ => (Ok tt, <[name := df]> db)
  | Some _, Fail => (Raise ValueError, db)
  | Some _, Replace => (Ok tt, <[name := df]> db)
  | Some old, Append =>
      if bool_decide (columns old = columns df) then
        (Ok tt, <[name := {| columns := columns old;
                             values := values old ++ values df |}]> db)
      else (Raise OperationalError, db)
  end.

Section Run.
Context {R : Runtime}.

(** [df[col] = df[col].astype(...)] *)
Definition astype_column (cast : cell -> result cell) (col : string)
    (df : DataFrame) : result DataFrame :=
  c ← df_getitem df col;
  c' ← mapM cast c;
  mret (df_setitem df col c').

Fixpoint astype_columns (cast : cell -> result cell) (cols : list string)
    (df : DataFrame) : result DataFrame :=
  match cols with
  | [] => mret df
  | col :: cols' => df ← astype_column cast col df;
                    astype_columns cast cols' df
  end.

Definition coerce (df : DataFrame) : result DataFrame :=
  df ← convert_dates df;
  df ← astype_columns (fun v => VFloat <$> astype_float v)
         ["Open"; "High"; "Low"; "Close"] df;
  astype_column (fun v => VInt <$> astype_int v) "Volume" df.

(** Lines 13 to 27.  [df] is the frame [pd.read_csv(csv_file)]
    returned, [db] the database file as the run finds it.  [Ok] says
    that line 27 was passed, not that the script ends normally: see
    [script]. *)
Definition main (df : DataFrame) (db : Database) : result unit * Database :=
  match coerce df with
  | Raise e => (Raise e, db)
  | Ok df => to_sql "ionq_prices" df Replace db
  end.

End Run.

End AnalyzeIonqLocal.

(** ** A runtime to run the scripts with

    It reads plain decimal numerals ([-12], [10.50]) and ISO dates
    ([2021-01-31]) and refuses every other text; as a date it takes text,
    Timestamps and integers only, and it casts to integer only floats
    within the int64 range.  On what it accepts it gives what Python,
    pandas and numpy give. *)

Module Plain.

Definition digit (a : Ascii.ascii) : option Z :=
  let n := Z.of_N (Ascii.N_of_ascii a) in
  if (48 <=? n) && (n <=? 57) then Some (n - 48) else None.

(** Value of a non-empty run of digits read after the value [acc]. *)
Fixpoint digits (s : string) (acc : Z) : option Z :=
  match s with
  | EmptyString => Some acc
  | String a s' => d ← digit a; digits s' (10 * acc + d)
  end.

Definition numeral (s : string) : option Z :=
  match s with
  | EmptyString => None
  | _ => digits s 0
  end.

(** Splits off a leading sign: [true] for minus. *)
Definition signed (s : string) : bool * string :=
  match s with
  | String "-"%char s' => (true, s')
  | String "+"%char s' => (false, s')
  | _ => (false, s)
  end.

Definition int_of_str (s : string) : option Z :=
  let (neg, body) := signed s in
  n ← numeral body; Some (if neg then - n else n).

Fixpoint split_at (sep : Ascii.ascii) (s : string) : string * option string :=
  match s with
  | EmptyString => (EmptyString, None)
  | String a s' =>
      if Ascii.eqb a sep then (EmptyString, Some s')
      else let (l, r) := split_at sep s' in (String a l, r)
  end.

(** The binary64 nearest to [m / 10^k], ties to even. *)
Definition round_decimal (neg : bool) (m : Z) (k : nat) : float :=
  let den := 10 ^ Z.of_nat k in
  let s := 64 + Z.log2_up den in
  let num := Z.shiftl m s in
  let q := 2 * (num / den) + (if num mod den =? 0 then 0 else 1) in
  SF2Prim (binary_normalize prec emax (if neg then - q else q) (- (s + 1)) neg).

Definition float_of_str (s : string) : option float :=
  let (neg, body) := signed s in
  let (whole, frac) := split_at "."%char body in
  let frac := default EmptyString frac in
  match String.append whole frac with
  | EmptyString => None
  | ds => m ← digits ds 0; Some (round_decimal neg m (String.length frac))
  end.

Definition leap (y : Z) : bool :=
  (y mod 4 =? 0) && (negb (y mod 100 =? 0) || (y mod 400 =? 0)).

Definition days_in_month (y m : Z) : Z :=
  if m =? 2 then (if leap y then 29 else 28)
  else if (m =? 4) || (m =? 6) || (m =? 9) || (m =? 11) then 30 else 31.

(** Days from 1970-01-01 to the given civil date. *)
Definition days_from_civil (y m d : Z) : Z :=
  let y' := if m <=? 2 then y - 1 else y in
  let era := y' / 400 in
  let yoe := y' - era * 400 in
  let doy := (153 * (if 2 <? m then m - 3 else m + 9) + 2) / 5 + d - 1 in
  let doe := yoe * 365 + yoe / 4 - yoe / 100 + doy in
  era * 146097 + doe - 719468.

Definition date_of_str (s : string) : option Z :=
  let (ys, rest) := split_at "-"%char s in
  rest ← rest;
  let (ms, ds) := split_at "-"%char rest in
  ds ← ds;
  if (String.length ys =? 4)%nat && (String.length ms =? 2)%nat
     && (String.length ds =? 2)%nat then
    y ← numeral ys; m ← numeral ms; d ← numeral ds;
    if (1 <=? m) && (m <=? 12) && (1 <=? d) && (d <=? days_in_month y m)
    then Some (days_from_civil y m d * 86400 * 1000000000)
    else None
  else None.

Definition to_datetime (v : cell) : result Z :=
  match v with
  | VStr s => match date_of_str s with
              | Some t => Ok t
              | None => Raise ValueError
              end
  | VTime t => Ok t
  | VInt z => Ok z
  | VFloat _ => Raise ValueError
  end.

Definition in_int64 (z : Z) : bool :=
  (- 2 ^ 63 <=? z) && (z <? 2 ^ 63).

Definition astype_float (v : cell) : result float :=
  match v with
  | VInt z => float_of_Z z
  | VFloat x => Ok x
  | VStr s => match float_of_str s with
              | Some x => Ok x
              | None => Raise ValueError
              end
  | VTime _ => Raise TypeError
  end.

Definition astype_int (v : cell) : result Z :=
  match v with
  | VInt z => Ok z
  | VFloat x => match Z_of_float x with
                | Ok z => if in_int64 z then Ok z else Raise OverflowError
                | Raise _ => Raise ValueError
                end
  | VStr s => match int_of_str s with
              | Some z => Ok z
              | None => Raise ValueError
              end
  | VTime _ => Raise TypeError
  end.

#[global] Instance runtime : Runtime := {|
  Py.float_of_str := float_of_str;
  Py.int_of_str := int_of_str;
  Py.to_datetime := to_datetime;
  Py.astype_float := astype_float;
  Py.astype_int := astype_int
|}.

End Plain.

(** ** Notions used to state the properties *)

Module Notions.

Section Rows.
Context {R : Runtime}.

(** [p] is the point of the CSV row [row]: measurement [ionq_stock],
    the row's parsed date as time, and the five fields in order, the
    prices as floats and the volume as an integer. *)
Definition point_of_row (row : Series) (p : Point) : Prop :=
  exists d t o h l c v,
    row_getitem row "Date" = Ok d /\ to_datetime d = Ok t /\
    row_getitem row "Open" ≫= py_float = Ok o /\
    row_getitem row "High" ≫= py_float = Ok h /\
    row_getitem row "Low" ≫= py_float = Ok l /\
    row_getitem row "Close" ≫= py_float = Ok c /\
    row_getitem row "Volume" ≫= py_int = Ok v /\
    p = {| p_name := "ionq_stock";
           p_time := Some (VTime t);
           p_fields := [("open", FFloat o); ("high", FFloat h);
                        ("low", FFloat l); ("close", FFloat c);
                        ("volume", FInt v)] |}.

(** One of the five numeric cells of the row is there and its conversion
    raises. *)
Definition numeric_failure (row : Series) : Prop :=
  (exists col v, col ∈ ["Open"; "High"; "Low"; "Close"]
                 /\ row_getitem row col = Ok v /\ is_ok (py_float v) = false)
  \/ (exists v, row_getitem row "Volume" = Ok v /\ is_ok (py_int v) = false).

(** A row of the frame after [df['Date'] = pd.to_datetime(df['Date'])]:
    the row it was, with the parsed date in the Date place. *)
Definition dated (i : nat) (r r' : list cell) : Prop :=
  exists t, to_datetime (at_pos i r) = Ok t /\ r' = put_pos i (VTime t) r.
End Rows.

(** The points of the requests a run added to the server's log. *)
Definition written (before after : World) : list Point :=
  concat (drop (length (calls (sink before))) (calls (sink after))).*2.

(** The sizes of those requests, in the order they were made. *)
Definition request_sizes (before after : World) : list nat :=
  (fun br => length br.2)
    <$> drop (length (calls (sink before))) (calls (sink after)).


(** [d.get(k)] on a dictionary kept in insertion order. *)
Fixpoint dict_get {V} (k : string) (d : list (string * V)) : option V :=
  match d with
  | [] => None
  | (k', v) :: d' => if String.eqb k' k then Some v else dict_get k d'
  end.


(** The verification read returned the close price of the last record
    the run wrote. *)
Definition verified (bucket : string) (before after : World) : Prop :=
  exists p c,
    last (written before after) = Some p
    /\ dict_get "close" (p_fields p) = Some c
    /\ (query_last_close bucket (sink after)).*2 = [c].

(** Reading of the specification: a run ends normally only if it is
    verified. *)
Definition success_means_verified (bucket : string) (run : M unit)
    (w : World) : Prop :=
  forall w', run w = (Ok tt, w') -> verified bucket w w'.



(** Reading of the specification: a write that fails twice and would be
    accepted the third time is retried, and the run ends normally with
    all its points written. *)
Definition retries_until_accepted (ps : list Point) (run : M unit)
    (w : World) : Prop :=
  forall later, outages (sink w) = true :: true :: false :: later ->
  exists w', run w = (Ok tt, w') /\ written w w' = ps.





(** Every cell of column [k] satisfies [P]. *)
Definition column_all (P : cell -> Prop) (df : DataFrame) (k : string) : Prop :=
  exists col, df_getitem df k = Ok col /\ Forall P col.

Definition is_time (c : cell) : Prop := exists t, c = VTime t.
Definition is_float (c : cell) : Prop := exists x, c = VFloat x.
Definition is_int (c : cell) : Prop := exists z, c = VInt z.

(** Bucket contents [new] laid over bucket contents [old]: a point of
    [new] replaces the fields it carries in the point of [old] with the
    same key. *)
Definition overlay (new old : gmap key (gmap string field_value))
  : gmap key (gmap string field_value) :=
  union_with (fun a b => Some (a ∪ b)) new old.

(** The points of a list of requests, each with its bucket. *)
Definition bucket_points (reqs : list (string * list Point))
  : list (string * Point) :=
  reqs ≫= fun br => (fun p => (br.1, p)) <$> br.2.

(** What one point adds to a bucket. *)
Definition point_map (b : string) (p : Point)
  : gmap key (gmap string field_value) :=
  match List.filter storable (p_fields p) with
  | [] => ∅
  | fs => {[ (b, p_name p, stamp p) := list_to_map fs ]}
  end.

Definition put_bucket_point (st : gmap key (gmap string field_value))
    (bp : string * Point) : gmap key (gmap string field_value) :=
  put_point bp.1 st (stamp bp.2, bp.2).

Definition required_columns : list string :=
  ["Date"; "Open"; "High"; "Low"; "Close"; "Volume"].

(** Reading of the specification: a frame that lacks a required column
    makes the run fail. *)
Definition rejects_missing_column (df : DataFrame) (run : M unit)
    (w : World) : Prop :=
  (exists c, c ∈ required_columns /\ c ∉ columns df) -> is_ok (run w).1 = false.

End Notions.
Import Notions.

(** ** Sample frames and servers *)

Module Samples.
Import Plain.

Definition header : list string :=
  ["Date"; "Open"; "High"; "Low"; "Close"; "Volume"].

(** 2021-01-01, 10.00, 11.00, 9.50, 10.50, 1000 *)
Definition row_20210101 : list cell :=
  [VStr "2021-01-01"; VFloat 10; VFloat 11; VFloat 9.5; VFloat 10.5; VInt 1000].

(** 2021-01-04, 10.50, 12.50, 10.25, 12.00, 2000 *)
Definition row_20210104 : list cell :=
  [VStr "2021-01-04"; VFloat 10.5; VFloat 12.5; VFloat 10.25; VFloat 12;
   VInt 2000].

(** An empty bucket on a server that accepts every request; the query
    range runs from 2020-01-01 to 2025-01-01. *)
Definition server : Sink :=
  {| store := ∅; calls := []; attempts := 0; queries := 0; outages := [];
     since := 1577836800000000000; now := 1735689600000000000 |}.

Definition world : World := {| sink := server; stdout := [] |}.

(** The same server five years on: the query range runs from 2025-01-01
    to 2030-01-01. *)
Definition late_server : Sink :=
  {| store := ∅; calls := []; attempts := 0; queries := 0; outages := [];
     since := 1735689600000000000; now := 1893456000000000000 |}.

Definition late_world : World := {| sink := late_server; stdout := [] |}.

Definition one_row : DataFrame :=
  {| columns := header; values := [row_20210101] |}.

(** The same two days, latest first. *)
Definition latest_first : DataFrame :=
  {| columns := header; values := [row_20210104; row_20210101] |}.






(** A server whose next two requests fail and whose third is accepted. *)
Definition flaky_server : Sink :=
  {| store := ∅; calls := []; attempts := 0; queries := 0;
     outages := [true; true; false];
     since := 1577836800000000000; now := 1735689600000000000 |}.

Definition flaky_world : World := {| sink := flaky_server; stdout := [] |}.

(** A file with a header that lacks Volume, and one data row. *)
Definition one_row_no_volume : DataFrame :=
  {| columns := ["Date"; "Open"; "High"; "Low"; "Close"];
     values := [[VStr "2021-01-01"; VFloat 10; VFloat 11; VFloat 9.5;
                 VFloat 10.5]] |}.

(** A file with a header that lacks Date, and one data row. *)
Definition one_row_no_date : DataFrame :=
  {| columns := ["Open"; "High"; "Low"; "Close"; "Volume"];
     values := [[VFloat 10; VFloat 11; VFloat 9.5; VFloat 10.5; VInt 1000]] |}.

(** A database file that already holds a table [ionq_prices] and another
    table. *)
Definition old_database : gmap string DataFrame :=
  {[ "ionq_prices" := {| columns := ["Date"; "Close"];
                         values := [[VStr "2020-12-31"; VFloat 1]] |};
     "notes" := {| columns := ["text"]; values := [[VStr "keep"]] |} ]}.

(** A file with a header that lacks Volume, and no data rows. *)
Definition header_only_no_volume : DataFrame :=
  {| columns := ["Date"; "Open"; "High"; "Low"; "Close"]; values := [] |}.

(** A file of 1500 rows whose row 1200 has an empty Volume cell, which
    [read_csv] reads as NaN in a float column. *)
Definition row_volume_float : list cell :=
  [VStr "2021-01-01"; VFloat 10; VFloat 11; VFloat 9.5; VFloat 10.5;
   VFloat 1000].

Definition row_volume_nan : list cell :=
  [VStr "2021-01-01"; VFloat 10; VFloat 11; VFloat 9.5; VFloat 10.5;
   VFloat nan].

Definition rows_1500_bad_1200 : DataFrame :=
  {| columns := header;
     values := replicate 1200 row_volume_float ++ row_volume_nan
               :: replicate 299 row_volume_float |}.

(** A file of 2500 data rows. *)
Definition rows_2500 : DataFrame :=
  {| columns := header; values := replicate 2500 row_20210101 |}.

End Samples.

(** ** Further notions and samples *)

Module More.

(** The record counts that a script reporting every [step] records
    prints while it imports [n] records. *)
Definition progress_marks (step n : nat) : list nat :=
  List.filter (fun m => (m mod step =? 0)%nat) (seq 1 n).

(** A file of 2000 data rows. *)
Definition rows_2000 : DataFrame :=
  {| columns := Samples.header;
     values := replicate 2000 Samples.row_20210101 |}.

(** A file of 250 data rows. *)
Definition rows_250 : DataFrame :=
  {| columns := Samples.header;
     values := replicate 250 Samples.row_20210101 |}.

(** A file with the six columns and no data row. *)
Definition header_only : DataFrame :=
  {| columns := Samples.header; values := [] |}.

(** A file whose third row has a date that does not parse. *)
Definition with_bad_date : DataFrame :=
  {| columns := Samples.header;
     values := [Samples.row_20210101; Samples.row_20210104;
                [VStr "soon"; VFloat 12; VFloat 12.75; VFloat 11.5;
                 VFloat 11.75; VInt 1500]] |}.

End More.
Import More.

(** ** prepare_data.py *)

Module PrepareData.

Definition output_file : string := "C:\ANFA\IONQ_historical.json".

(** The reductions of pandas that the script only prints. *)
Class Describe := {
  series_min : list cell -> result cell;  (* Series.min() of a raw column *)
  series_max : list cell -> result cell;  (* Series.max() of a raw column *)
  float_mean : list float -> float;       (* Series.mean() of a float column *)
  float_min : list float -> float;        (* Series.min() of a float column *)
  float_max : list float -> float;        (* Series.max() of a float column *)
  int_sum : list Z -> Z                   (* Series.sum() of an int column *)
}.

(** The dtype of the rows [iterrows] yields, which is the common dtype of
    the columns: int64 when every column is, float64 when every column is
    numeric, object otherwise. *)
Inductive row_dtype := Int64 | Float64 | Object.

Definition is_int_cell (c : cell) : bool :=
  match c with VInt _ => true | _ => false end.

Definition is_num_cell (c : cell) : bool :=
  match c with VInt _ | VFloat _ => true | _ => false end.

Definition rows_dtype (df : DataFrame) : row_dtype :=
  if forallb (forallb is_int_cell) (values df) then Int64
  else if forallb (forallb is_num_cell) (values df) then Float64
  else Object.

(** int64 to float64, as numpy casts it. *)
Definition to_float64 (c : cell) : cell :=
  match c with
  | VInt z => VFloat (SF2Prim (binary_normalize prec emax z 0 false))
  | _ => c
  end.

(** [df.iterrows()] on a frame as [read_csv] returned it: the rows of a
    numeric frame with a float column come out as float64. *)
Definition iterrows (df : DataFrame) : list (nat * Series) :=
  enumerate 0
    (match rows_dtype df with
     | Float64 =>
         (fun r => {| s_index := columns df; s_data := to_float64 <$> r |})
           <$> values df
     | _ => rows df
     end).

(** A Python object as [json.dump] meets it. *)
Inductive pyobj :=
| PyStr (s : string)
| PyFloat (x : float)
| PyInt (z : Z)
| NpInt64 (z : Z)          (* numpy.int64, out of an int64 row *)
| PyTimestamp (t : Z).

(** The object [row[key]] hands over for a cell. An object row holds
    Python numbers, an int64 row numpy integers; numpy.float64 is a
    Python float. *)
Definition as_object (dtype : row_dtype) (c : cell) : pyobj :=
  match c with
  | VStr s => PyStr s
  | VFloat x => PyFloat x
  | VInt z => match dtype with Int64 => NpInt64 z | _ => PyInt z end
  | VTime t => PyTimestamp t
  end.

Definition json_serializable (o : pyobj) : bool :=
  match o with
  | PyStr _ | PyFloat _ | PyInt _ => true
  | NpInt64 _ | PyTimestamp _ => false
  end.

(** What a file holds: the records of a finished [json.dump], or the
    beginning of a JSON text that was cut where the encoder failed. *)
Inductive file_content :=
| Complete (data : list (list (string * pyobj)))
| Incomplete.

(** One constructor for each [print] of the script. *)
Inductive line :=
| LineLoaded (n : nat)
| LineDateRange (first last : cell)
| LineFirstRows
| LineHead (header : list string) (rows : list (list cell))
| LineStatistics
| LineAverageClose (x : float)
| LineMinClose (x : float)
| LineMaxClose (x : float)
| LineTotalVolume (z : Z)
| LineSaved (path : string)
| LineRunning
| LineSetup.

Record Disk := {
  files : gmap string file_content;
  terminal : list line
}.

Definition P (A : Type) : Type := Disk -> result A * Disk.

#[global] Instance P_ret : MRet P := fun A a d => (Ok a, d).
#[global] Instance P_bind : MBind P := fun A B f m d =>
  match m d with
  | (Ok a, d') => f a d'
  | (Raise e, d') => (Raise e, d')
  end.

Definition compute {A} (r : result A) : P A := fun d => (r, d).

Definition print (l : line) : P unit := fun d =>
  (Ok tt, {| files := files d; terminal := terminal d ++ [l] |}).

(** [with open(path, 'w') as f: json.dump(data, f, indent=2)]: the file
    is emptied when it is opened, the text is written piece by piece, and
    an object the encoder does not know stops it with [TypeError]. *)
Definition json_dump (path : string) (data : list (list (string * pyobj)))
  : P unit := fun d =>
  if forallb (forallb (fun kv => json_serializable kv.2)) data then
    (Ok tt, {| files := <[path := Complete data]> (files d);
               terminal := terminal d |})
  else
    (Raise TypeError, {| files := <[path := Incomplete]> (files d);
                         terminal := terminal d |}).

Section Run.
Context {R : Runtime} {D : Describe}.

(** The dictionary appended for one row, its values evaluated top to
    bottom. *)
Definition json_row (dtype : row_dtype) (row : Series)
  : result (list (string * pyobj)) :=
  d ← row_getitem row "Date";
  o ← row_getitem row "Open" ≫= py_float;
  h ← row_getitem row "High" ≫= py_float;
  l ← row_getitem row "Low" ≫= py_float;
  c ← row_getitem row "Close" ≫= py_float;
  v ← row_getitem row "Volume" ≫= py_int;
  mret [("timestamp", as_object dtype d); ("open", PyFloat o);
        ("high", PyFloat h); ("low", PyFloat l); ("close", PyFloat c);
        ("volume", PyInt v)].

(** The [for _, row in df.iterrows()] loop. *)
Definition json_rows (df : DataFrame) : result (list (list (string * pyobj))) :=
  mapM (json_row (rows_dtype df)) (iterrows df).*2.

(** The module body; [df] is the frame [pd.read_csv(csv_file)] returned.
    The output file is taken to be writable. *)
Definition main (df : DataFrame) : P unit :=
  print (LineLoaded (len df));;
  first ← compute (df_getitem df "Date" ≫= series_min);
  last ← compute (df_getitem df "Date" ≫= series_max);
  print (LineDateRange first last);;
  print LineFirstRows;;
  print (LineHead (columns df) (take 5 (values df)));;
  print LineStatistics;;
  closes ← compute (df_getitem df "Close" ≫= mapM astype_float);
  print (LineAverageClose (float_mean closes));;
  closes ← compute (df_getitem df "Close" ≫= mapM astype_float);
  print (LineMinClose (float_min closes));;
  closes ← compute (df_getitem df "Close" ≫= mapM astype_float);
  print (LineMaxClose (float_max closes));;
  volumes ← compute (df_getitem df "Volume" ≫= mapM astype_int);
  print (LineTotalVolume (int_sum volumes));;
  json_data ← compute (json_rows df);
  json_dump output_file json_data;;
  print (LineSaved output_file);;
  print LineRunning;;
  print LineSetup.

(** What [json.dump] returns and leaves for [data]. *)
Definition dumpable (data : list (list (string * pyobj))) : bool :=
  forallb (forallb (fun kv => json_serializable kv.2)) data.

Definition dumped (data : list (list (string * pyobj))) : file_content :=
  if dumpable data then Complete data else Incomplete.

(** The JSON value of a field of a point. *)
Definition as_json (v : field_value) : pyobj :=
  match v with
  | FFloat x => PyFloat x
  | FInt z => PyInt z
  end.

Definition is_text (c : cell) : Prop := exists s, c = VStr s.

(** Everything the script computes before it opens the output file. *)
Definition prepare (df : DataFrame) : result (list (list (string * pyobj))) :=
  _ ← df_getitem df "Date" ≫= series_min;
  _ ← df_getitem df "Date" ≫= series_max;
  _ ← df_getitem df "Close" ≫= mapM astype_float;
  _ ← df_getitem df "Volume" ≫= mapM astype_int;
  json_rows df.
End Run.

End PrepareData.

(** ** Reductions to run prepare_data.py with

    Minimum and maximum are given for text columns (by code point) and
    integer columns, and is refused for others; NaN is skipped in the
    float reductions; the mean is summed left to right; the integer sum
    wraps at 64 bits. *)

Module PlainDescribe.
Import PrepareData.

Definition text_of (c : cell) : option string :=
  match c with VStr s => Some s | _ => None end.

Definition int_of (c : cell) : option Z :=
  match c with VInt z => Some z | _ => None end.

(** The values of [f] over [l], if [f] gives one for every element. *)
Fixpoint collect {A B} (f : A -> option B) (l : list A) : option (list B) :=
  match l with
  | [] => Some []
  | a :: l' => b ← f a; bs ← collect f l'; Some (b :: bs)
  end.

Definition pick_text (less : bool) (a b : string) : string :=
  if String.ltb b a then (if less then b else a)
  else (if less then a else b).

Definition extreme (less : bool) (col : list cell) : result cell :=
  match col with
  | [] => Ok (VFloat nan)
  | _ =>
      match collect text_of col, collect int_of col with
      | Some (s :: ss), _ => Ok (VStr (foldl (pick_text less) s ss))
      | _, Some (z :: zs) =>
          Ok (VInt (foldl (if less then Z.min else Z.max) z zs))
      | _, _ => Raise TypeError
      end
  end.

Definition numbers (l : list float) : list float :=
  List.filter (fun x => negb (is_nan x)) l.

Definition mean (l : list float) : float :=
  let xs := numbers l in
  PrimFloat.div (foldl PrimFloat.add 0%float xs)
    (SF2Prim (binary_normalize prec emax (Z.of_nat (length xs)) 0 false)).

Definition least (l : list float) : float :=
  match numbers l with
  | [] => nan
  | x :: xs => foldl (fun a b => if PrimFloat.ltb b a then b else a) x xs
  end.

Definition greatest (l : list float) : float :=
  match numbers l with
  | [] => nan
  | x :: xs => foldl (fun a b => if PrimFloat.ltb a b then b else a) x xs
  end.

Definition sum64 (l : list Z) : Z :=
  (foldl Z.add 0 l + 2 ^ 63) mod 2 ^ 64 - 2 ^ 63.

#[global] Instance describe : Describe := {|
  series_min := extreme true;
  series_max := extreme false;
  float_mean := mean;
  float_min := least;
  float_max := greatest;
  int_sum := sum64
|}.

End PlainDescribe.

(** ** More samples *)

Module MoreSamples.
Import PrepareData.

(** An output file left by an earlier export. *)
Definition old_disk : Disk :=
  {| files := {[ output_file := Complete [[("timestamp", PyStr "2020-12-31")]] ]};
     terminal := [] |}.

(** Three rows, the second with text in the Low column; [read_csv] then
    reads the whole column as text. *)
Definition with_bad_low : DataFrame :=
  {| columns := Samples.header;
     values :=
       [[VStr "2021-01-01"; VFloat 10; VFloat 11; VStr "9.50"; VFloat 10.5;
         VInt 1000];
        [VStr "2021-01-04"; VFloat 10.5; VFloat 12.5; VStr "halted"; VFloat 12;
         VInt 2000];
        [VStr "2021-01-05"; VFloat 12; VFloat 12.75; VStr "11.50";
         VFloat 11.75; VInt 1500]] |}.

(** A file whose every column, the date included, holds integers. *)
Definition all_integers : DataFrame :=
  {| columns := Samples.header;
     values := [[VInt 20210101; VInt 10; VInt 11; VInt 9; VInt 10; VInt 1000];
                [VInt 20210104; VInt 10; VInt 12; VInt 10; VInt 12;
                 VInt 2000]] |}.

(** A file with one more column than the six. *)
Definition with_adj_close : DataFrame :=
  {| columns := ["Date"; "Open"; "High"; "Low"; "Close"; "Adj Close";
                 "Volume"];
     values := [[VStr "2021-01-01"; VFloat 10; VFloat 11; VFloat 9.5;
                 VFloat 10.5; VFloat 10.25; VInt 1000]] |}.

(** A file with a header that lacks Close, and no data row. *)
Definition header_only_no_close : DataFrame :=
  {| columns := ["Date"; "Open"; "High"; "Low"; "Volume"]; values := [] |}.

End MoreSamples.

(** * Properties *)

(** ** The monad and the server *)

Section MonadFacts.
Context {R : Runtime}.

Lemma bind_ok {A B} (m : M A) (f : A -> M B) w a w' :
  m w = (Ok a, w') -> (m ≫= f) w = f a w'.
Proof. intros H. unfold mbind, M_bind. by rewrite H. Qed.

Lemma bind_raise {A B} (m : M A) (f : A -> M B) w e w' :
  m w = (Raise e, w') -> (m ≫= f) w = (Raise e, w').
Proof. intros H. unfold mbind, M_bind. by rewrite H. Qed.

Lemma bind_at {A B} (m : M A) (f : A -> M B) w :
  (m ≫= f) w = match m w with
               | (Ok a, w') => f a w'
               | (Raise e, w') => (Raise e, w')
               end.
Proof. done. Qed.

Lemma stamped_timestamp s p : stamped p -> timestamp_of s p = Ok (stamp p).
Proof. intros [t Ht]. unfold timestamp_of, stamp. by rewrite Ht. Qed.

Lemma stamped_timestamps s r :
  Forall stamped r -> mapM (timestamp_of s) r = Ok (stamp <$> r).
Proof.
  induction 1 as [|p r Hp _ IH]; [done|].
  cbn. rewrite (stamped_timestamp _ _ Hp). cbn. by rewrite IH.
Qed.

Lemma foldl_put_zip b st r :
  foldl (put_point b) st (zip (stamp <$> r) r)
  = foldl (fun st p => put_point b st (stamp p, p)) st r.
Proof. revert st. induction r as [|p r IH]; intros st; [done|]. cbn. apply IH. Qed.

(** A request the server is not scheduled to refuse is accepted. *)
Lemma write_accept b r s :
  Forall stamped r -> head (outages s) ≠ Some true ->
  write b r s = (Ok tt, accept b r s).
Proof.
  intros Hr Ho. unfold write, accept.
  rewrite (stamped_timestamps _ _ Hr), foldl_put_zip.
  destruct (outages s) as [|[] later]; cbn in *; congruence.
Qed.

(** A request the server is scheduled to refuse raises at once. *)
Lemma write_refuse b r s :
  Forall stamped r -> head (outages s) = Some true ->
  write b r s = (Raise ApiException, refuse s).
Proof.
  intros Hr Ho. unfold write, refuse.
  rewrite (stamped_timestamps _ _ Hr).
  destruct (outages s) as [|[] later]; cbn in *; congruence.
Qed.
End MonadFacts.

(** ** Performing a list of actions *)

Section PerformFacts.
Context {R : Runtime}.

Lemma calm_nil n s : outages s = [] -> calm n s.
Proof. unfold calm. intros ->. rewrite take_nil. constructor. Qed.

Lemma calm_head n s : calm (S n) s -> head (outages s) ≠ Some true.
Proof.
  unfold calm. destruct (outages s) as [|b l]; cbn; [done|].
  intros H. inversion H; subst. done.
Qed.

Lemma calm_le n m s : (n <= m)%nat -> calm m s -> calm n s.
Proof.
  unfold calm. intros Hle H. replace n with (n `min` m)%nat by lia.
  rewrite <- take_take. by apply Forall_take.
Qed.

Lemma calm_drop n s :
  calm (S n) s -> head (drop n (outages s)) ≠ Some true.
Proof.
  unfold calm. generalize (outages s). induction n as [|n IH]; intros l.
  - destruct l as [|b l]; cbn; [done|]. intros H. by inversion H; subst.
  - destruct l as [|b l]; cbn [drop]; [done|]. intros H. apply IH.
    by inversion H.
Qed.

Lemma calm_accept n b r s : calm (S n) s -> calm n (accept b r s).
Proof.
  unfold calm. cbn. destruct (outages s) as [|x l]; cbn.
  - rewrite take_nil. constructor.
  - intros H. by inversion H.
Qed.

Lemma sends_cons_send b r acts : sends (Send b r :: acts) = (b, r) :: sends acts.
Proof. done. Qed.

Lemma sends_cons_say m acts : sends (Say m :: acts) = sends acts.
Proof. done. Qed.

Lemma sends_app a1 a2 : sends (a1 ++ a2) = sends a1 ++ sends a2.
Proof. apply omap_app. Qed.

Lemma says_app a1 a2 : says (a1 ++ a2) = says a1 ++ says a2.
Proof. apply omap_app. Qed.

Lemma perform_app a1 a2 w :
  perform (a1 ++ a2) w = (perform a1;; perform a2) w.
Proof.
  revert w. induction a1 as [|[b r|m] a1 IH]; intros w; [done| |].
  - cbn [app perform]. unfold mbind, M_bind.
    destruct (write_api_write b r w) as [[[]|e] w']; [|done].
    rewrite IH. done.
  - cbn [app perform]. unfold mbind, M_bind. cbn.
    rewrite IH. done.
Qed.

(** When the server accepts every request, the actions all happen. *)
Lemma perform_ok acts w :
  stamped_sends acts -> calm (length (sends acts)) (sink w) ->
  perform acts w = (Ok tt, foldl effect w acts).
Proof.
  revert w. induction acts as [|[b r|m] acts IH]; intros w Hst Hc; [done| |].
  - rewrite sends_cons_send in Hc. cbn [length] in Hc.
    unfold stamped_sends in Hst. rewrite sends_cons_send in Hst.
    inversion Hst as [|? ? Hr Hst']; subst. cbn in Hr.
    cbn [perform foldl].
    erewrite bind_ok; [apply IH; [done|]|].
    + cbn. by eapply calm_accept.
    + unfold write_api_write.
      rewrite (write_accept _ _ _ Hr (calm_head _ _ Hc)). done.
  - cbn [perform foldl]. erewrite bind_ok; [|done]. apply IH; done.
Qed.

Lemma effect_calls w acts :
  calls (sink (foldl effect w acts)) = calls (sink w) ++ sends acts.
Proof.
  revert w. induction acts as [|[b r|m] acts IH]; intros w; cbn [foldl].
  - by rewrite app_nil_r.
  - rewrite IH. cbn. by rewrite <- app_assoc.
  - rewrite IH. done.
Qed.

Lemma effect_stdout w acts :
  stdout (foldl effect w acts) = stdout w ++ says acts.
Proof.
  revert w. induction acts as [|[b r|m] acts IH]; intros w; cbn [foldl].
  - by rewrite app_nil_r.
  - rewrite IH. done.
  - rewrite IH. cbn. by rewrite <- app_assoc.
Qed.

Lemma effect_attempts w acts :
  attempts (sink (foldl effect w acts))
  = (attempts (sink w) + length (sends acts))%nat.
Proof.
  revert w. induction acts as [|[b r|m] acts IH]; intros w; cbn [foldl].
  - cbn. lia.
  - rewrite IH, sends_cons_send. cbn. lia.
  - rewrite IH. done.
Qed.

Lemma effect_outages w acts :
  outages (sink (foldl effect w acts))
  = drop (length (sends acts)) (outages (sink w)).
Proof.
  revert w. induction acts as [|[b r|m] acts IH]; intros w; cbn [foldl].
  - done.
  - rewrite IH, sends_cons_send. cbn.
    destruct (outages (sink w)); [|done]. cbn. by rewrite drop_nil.
  - rewrite IH. done.
Qed.

Lemma effect_window w acts :
  since (sink (foldl effect w acts)) = since (sink w)
  /\ now (sink (foldl effect w acts)) = now (sink w).
Proof.
  revert w. induction acts as [|[b r|m] acts IH]; intros w; cbn [foldl];
    [done| |]; by rewrite !(proj1 (IH _)), !(proj2 (IH _)).
Qed.

Lemma effect_store w acts :
  store (sink (foldl effect w acts)) = put_all (store (sink w)) (sends acts).
Proof.
  revert w. induction acts as [|[b r|m] acts IH]; intros w; cbn [foldl].
  - done.
  - rewrite IH. done.
  - rewrite IH. done.
Qed.

(** When the server refuses the request that follows [pre], the run
    stops there: the request is not repeated and nothing after it is
    attempted. *)
Lemma perform_refused pre b r post w :
  stamped_sends (pre ++ [Send b r]) ->
  calm (length (sends pre)) (sink w) ->
  outages (sink w) !! length (sends pre) = Some true ->
  perform (pre ++ Send b r :: post) w
  = (Raise ApiException,
     {| sink := refuse (sink (foldl effect w pre));
        stdout := stdout (foldl effect w pre) |}).
Proof.
  intros Hst Hc Ho. rewrite perform_app.
  unfold stamped_sends in Hst. rewrite sends_app in Hst.
  apply Forall_app in Hst as [Hpre Hr].
  erewrite bind_ok; [|by apply perform_ok].
  cbn [perform]. apply bind_raise. unfold write_api_write.
  rewrite write_refuse; [done| |].
  - inversion Hr; subst. done.
  - rewrite effect_outages. by rewrite head_lookup, lookup_drop, Nat.add_0_r.
Qed.
End PerformFacts.

(** ** import_ionq_to_influx.py: the run is its dry run, performed *)

Section ToInfluxTrace.
Context {R : Runtime}.
Import ImportIonqToInflux.

Lemma import_rows_trace l index points w :
  import_rows (enumerate index l) points w
  = (perform (loop_trace index points (convert_rows l).1).1;;
     match (convert_rows l).2 with
     | Some e => lift (Raise e)
     | None => mret (loop_trace index points (convert_rows l).1).2
     end) w.
Proof.
  revert index points w. induction l as [|row l IH]; intros index points w.
  - done.
  - cbn [enumerate import_rows convert_rows].
    destruct (build_point row) as [p|e] eqn:Hp; [|done].
    destruct (convert_rows l) as [ps e] eqn:Hl. cbn [fst snd] in *.
    cbn [loop_trace]. unfold lift at 1. unfold mbind at 1, M_bind at 1.
    destruct (1000 <=? length (points ++ [p]))%nat.
    + specialize (IH (S index) [] ).
      destruct (loop_trace (S index) [] ps) as [acts buf]. cbn [fst snd] in *.
      cbn [perform]. unfold mbind, M_bind in *.
      destruct (write_api_write INFLUX_BUCKET (points ++ [p]) w)
        as [[[]|e'] w']; [|done].
      cbn. apply IH.
    + apply IH.
Qed.

Theorem run_trace df w :
  import_csv_to_influxdb df w
  = (perform (dry_run df).1;;
     finish (dry_run df).2 (read_back INFLUX_BUCKET)) w.
Proof.
  unfold import_csv_to_influxdb, dry_run.
  destruct (convert_dates df) as [df'|e]; [|done].
  do 3 (rewrite bind_at; cbn [print lift]).
  rewrite bind_at. cbn [sink stdout].
  unfold iterrows. rewrite import_rows_trace.
  destruct (convert_rows (rows df')) as [ps e]. cbn [fst snd].
  destruct (loop_trace 0 [] ps) as [acts buf]. cbn [fst snd].
  destruct e as [e|]; cbn [fst snd app perform finish];
    repeat first [ rewrite bind_at | rewrite perform_app
                 | progress cbn [print lift sink stdout] ];
    destruct (perform acts _) as [[[]|e'] w']; try done.
  cbn [mret M_ret]. unfold flush_trace.
  case_bool_decide; cbn [perform mret M_ret];
    repeat first [ rewrite bind_at
                 | progress cbn [print lift sink stdout mret M_ret app perform] ];
    [done|].
  destruct (write_api_write INFLUX_BUCKET buf w') as [[[]|e'] w'']; done.
Qed.
End ToInfluxTrace.

(** ** import_ionq.py: the run is its dry run, performed *)

Section IonqTrace.
Context {R : Runtime}.
Import ImportIonq.

Lemma import_rows_trace_each l index count w :
  import_rows (enumerate index l) count w
  = (perform (loop_trace count (convert_rows l).1);;
     finish (convert_rows l).2 (mret tt)) w.
Proof.
  revert index count w. induction l as [|row l IH]; intros index count w.
  - done.
  - cbn [enumerate import_rows convert_rows].
    destruct (build_point row) as [p|e] eqn:Hp; [|done].
    specialize (IH (S index) (count + 1)%nat).
    destruct (convert_rows l) as [ps e] eqn:Hl. cbn [fst snd] in *.
    cbn [loop_trace perform].
    repeat first [ rewrite bind_at | progress cbn [lift] ].
    destruct (write_api_write BUCKET [p] w) as [[[]|e'] w']; [|done].
    rewrite perform_app.
    destruct ((count + 1) mod 100 =? 0)%nat;
      repeat first [ rewrite bind_at
                   | progress cbn [print lift mret M_ret perform] ];
      rewrite IH, bind_at; done.
Qed.

Theorem main_trace df w :
  main df w
  = (perform (dry_run df).1;; finish (dry_run df).2 (read_back BUCKET)) w.
Proof.
  unfold main, dry_run.
  destruct (convert_dates df) as [df'|e]; [|done].
  do 2 (rewrite bind_at; cbn [print lift]).
  rewrite bind_at. unfold iterrows. rewrite import_rows_trace_each.
  destruct (convert_rows (rows df')) as [ps e]. cbn [fst snd].
  destruct e as [e|]; cbn [fst snd app perform finish];
    repeat first [ rewrite bind_at | rewrite perform_app
                 | progress cbn [print lift sink stdout mret M_ret perform] ];
    destruct (perform (loop_trace 0 ps) _) as [[[]|e'] w']; done.
Qed.
End IonqTrace.

(** ** The verification block *)

Section ReadBack.

Lemma for_each_print (l : list (Z * field_value)) w :
  for_each l (fun record => print (MsgLastClose record.2 record.1)) w
  = (Ok tt, {| sink := sink w; stdout := stdout w ++ (echo <$> l) |}).
Proof.
  revert w. induction l as [|r l IH]; intros w.
  - cbn. rewrite app_nil_r. by destruct w.
  - cbn [for_each]. rewrite bind_at. cbn [print]. rewrite IH. cbn.
    by rewrite <- app_assoc.
Qed.

(** The block prints what the query returns and ends normally, whatever
    that is. *)
Lemma read_back_prints bucket w :
  head (outages (sink w)) ≠ Some true ->
  read_back bucket w = (Ok tt, after_read_back bucket w).
Proof.
  intros Ho. unfold read_back, after_read_back. rewrite bind_at.
  unfold query_api_query, query.
  destruct (outages (sink w)) as [|[] l] eqn:E; [|done|];
    cbn [fst snd]; by rewrite for_each_print.
Qed.

(** When the server does not answer the query, the block raises and
    prints nothing. *)
Lemma read_back_refused bucket w :
  head (outages (sink w)) = Some true ->
  read_back bucket w
  = (Raise ApiException, {| sink := asked (sink w); stdout := stdout w |}).
Proof.
  intros Ho. unfold read_back. rewrite bind_at.
  unfold query_api_query, query.
  by destruct (outages (sink w)) as [|[] l].
Qed.
End ReadBack.

(** ** Frames and rows *)

Section PandasFacts.
Context {R : Runtime}.

Lemma at_put_eq i v r : at_pos i (put_pos i v r) = v.
Proof.
  unfold at_pos. revert r. induction i as [|i IH]; intros [|c r]; cbn; auto.
Qed.

Lemma at_put_ne i j v r : i ≠ j -> at_pos j (put_pos i v r) = at_pos j r.
Proof.
  unfold at_pos. revert j r. induction i as [|i IH]; intros [|j] [|c r] Hne;
    cbn; try done.
  - etrans; [apply (IH j []); lia|]. by destruct j.
  - apply IH. lia.
Qed.

Lemma get_loc_inj k1 k2 cols i :
  get_loc k1 cols = Some i -> get_loc k2 cols = Some i -> k1 = k2.
Proof.
  revert i. induction cols as [|c cols IH]; intros i; cbn; [done|].
  destruct (String.eqb c k1) eqn:E1, (String.eqb c k2) eqn:E2.
  - apply String.eqb_eq in E1, E2. congruence.
  - intros [= <-]. by destruct (get_loc k2 cols).
  - intros H [= <-]. by destruct (get_loc k1 cols).
  - destruct (get_loc k1 cols) as [i1|], (get_loc k2 cols) as [i2|];
      cbn; try done.
    intros [= <-] [= ->]. by eapply IH.
Qed.

Lemma mapM_Forall2 {A B} (f : A -> result B) l l' :
  mapM f l = Ok l' -> Forall2 (fun a b => f a = Ok b) l l'.
Proof.
  revert l'. induction l as [|a l IH]; intros l'; cbn.
  - intros [= <-]. constructor.
  - destruct (f a) as [b|e] eqn:Hb; [|done]. cbn.
    destruct (mapM f l) as [bs|e]; [|done]. cbn.
    intros [= <-]. constructor; auto.
Qed.

Lemma convert_dates_inv df df' :
  convert_dates df = Ok df' ->
  exists i, get_loc "Date" (columns df) = Some i
            /\ columns df' = columns df
            /\ Forall2 (dated i) (values df) (values df').
Proof.
  unfold convert_dates, df_getitem, df_setitem.
  destruct (get_loc "Date" (columns df)) as [i|] eqn:Hi; [|done]. cbn.
  destruct (mapM to_datetime (at_pos i <$> values df)) as [ts|e] eqn:Hts;
    [|done].
  cbn. intros [= <-]. exists i. split; [done|]. split; [done|]. cbn.
  apply mapM_Forall2 in Hts. clear Hi.
  revert ts Hts. induction (values df) as [|r l IH]; intros ts Hts.
  - inversion Hts; subst. constructor.
  - inversion Hts as [|? t ? ts' Ht Hts']; subst. cbn. constructor.
    + by exists t.
    + by apply IH.
Qed.

Lemma convert_dates_len df df' : convert_dates df = Ok df' -> len df' = len df.
Proof.
  intros (i & _ & _ & H)%convert_dates_inv. unfold len.
  symmetry. by eapply Forall2_length.
Qed.

Lemma row_getitem_dated cols i r r' key :
  get_loc "Date" cols = Some i -> dated i r r' -> key ≠ "Date" ->
  row_getitem {| s_index := cols; s_data := r' |} key
  = row_getitem {| s_index := cols; s_data := r |} key.
Proof.
  intros Hi (t & _ & ->) Hk. unfold row_getitem. cbn.
  destruct (get_loc key cols) as [j|] eqn:Hj; [|done].
  rewrite at_put_ne; [done|]. intros ->.
  apply Hk. by eapply get_loc_inj.
Qed.

(** The point built from a row whose date was parsed is the point of
    the row as it was read. *)
Lemma build_point_dated cols i r r' p :
  get_loc "Date" cols = Some i -> dated i r r' ->
  build_point {| s_index := cols; s_data := r' |} = Ok p ->
  point_of_row {| s_index := cols; s_data := r |} p.
Proof.
  intros Hi Hd. unfold build_point.
  rewrite !(row_getitem_dated _ _ _ _ _ Hi Hd) by done.
  destruct Hd as (t & Ht & ->).
  assert (row_getitem {| s_index := cols; s_data := put_pos i (VTime t) r |}
            "Date" = Ok (VTime t)) as ->.
  { unfold row_getitem. cbn [s_index s_data]. by rewrite Hi, at_put_eq. }
  cbn [mbind result_bind].
  set (row := {| s_index := cols; s_data := r |}).
  destruct (row_getitem row "Open" ≫= py_float) as [o|] eqn:Ho; [|done].
  destruct (row_getitem row "High" ≫= py_float) as [h|] eqn:Hh; [|done].
  destruct (row_getitem row "Low" ≫= py_float) as [l|] eqn:Hl; [|done].
  destruct (row_getitem row "Close" ≫= py_float) as [c|] eqn:Hc; [|done].
  destruct (row_getitem row "Volume" ≫= py_int) as [v|] eqn:Hv; [|done].
  cbn. intros [= <-].
  exists (at_pos i r), t, o, h, l, c, v.
  assert (row_getitem row "Date" = Ok (at_pos i r)) as ->.
  { unfold row_getitem, row. cbn [s_index s_data]. by rewrite Hi. }
  repeat split; done.
Qed.

Lemma point_of_row_stamped row p : point_of_row row p -> stamped p.
Proof. intros (d & t & o & h & l & c & v & H). exists t. by destruct_and!; subst. Qed.

Lemma convert_rows_Forall2 l ps e :
  convert_rows l = (ps, e) ->
  Forall2 (fun row p => build_point row = Ok p) (take (length ps) l) ps.
Proof.
  revert ps e. induction l as [|row l IH]; intros ps e; cbn.
  - intros [= <- <-]. constructor.
  - destruct (build_point row) as [p|e'] eqn:Hp.
    + destruct (convert_rows l) as [ps' e'']. intros [= <- <-]. cbn.
      constructor; eauto.
    + intros [= <- <-]. constructor.
Qed.

Lemma convert_rows_all l ps :
  convert_rows l = (ps, None) -> length ps = length l.
Proof.
  revert ps. induction l as [|row l IH]; intros ps; cbn.
  - by intros [= <-].
  - destruct (build_point row) as [p|e'] eqn:Hp; [|done].
    destruct (convert_rows l) as [ps' e''] eqn:Hl. intros [= <- ->]. cbn.
    f_equal. by apply IH.
Qed.

(** The points of a frame are, in order, the points of its first rows. *)
Theorem points_of_rows df ps e :
  points_of df = (ps, e) ->
  Forall2 point_of_row (take (length ps) (rows df)) ps.
Proof.
  unfold points_of.
  destruct (convert_dates df) as [df'|e'] eqn:Hdf.
  - intros Hps. apply convert_dates_inv in Hdf as (i & Hi & Hcols & Hrows).
    apply convert_rows_Forall2 in Hps. unfold rows in *. rewrite Hcols in Hps.
    clear Hcols e.
    revert ps Hps. induction Hrows as [|r r' l l' Hd _ IH]; intros ps Hps.
    + cbn in Hps. rewrite take_nil in Hps. inversion Hps; subst.
      cbn. constructor.
    + destruct ps as [|p ps]; [constructor|]. cbn in *.
      inversion Hps; subst. constructor; [|by apply IH].
      by eapply build_point_dated.
  - intros [= <- <-]. constructor.
Qed.

Lemma points_of_stamped df ps e : points_of df = (ps, e) -> Forall stamped ps.
Proof.
  intros H%points_of_rows.
  induction H as [|row p l ps' Hp _ IH]; constructor; [|done].
  by apply (point_of_row_stamped row).
Qed.
End PandasFacts.

(** ** The batches of import_ionq_to_influx.py *)

Section Batches.
Context {R : Runtime}.
Import ImportIonqToInflux.

(** The loop sends the points in the order of the rows and keeps the
    rest in its buffer: nothing is lost, repeated or reordered. *)
Lemma loop_trace_concat index points ps :
  concat (sends (loop_trace index points ps).1).*2
    ++ (loop_trace index points ps).2
  = points ++ ps.
Proof.
  revert index points. induction ps as [|p ps IH]; intros index points.
  - cbn. by rewrite app_nil_r.
  - cbn [loop_trace]. destruct (1000 <=? length (points ++ [p]))%nat.
    + specialize (IH (S index) []).
      destruct (loop_trace (S index) [] ps) as [acts buf]. cbn [fst snd] in *.
      rewrite sends_cons_send, sends_cons_say. cbn [fmap list_fmap snd concat].
      rewrite <- !app_assoc. cbn in IH. rewrite IH. done.
    + rewrite IH. by rewrite <- app_assoc.
Qed.

Lemma loop_trace_bucket index points ps :
  Forall (fun br => br.1 = INFLUX_BUCKET) (sends (loop_trace index points ps).1).
Proof.
  revert index points. induction ps as [|p ps IH]; intros index points.
  - constructor.
  - cbn [loop_trace]. destruct (1000 <=? length (points ++ [p]))%nat.
    + specialize (IH (S index) []).
      destruct (loop_trace (S index) [] ps) as [acts buf]. cbn [fst snd] in *.
      rewrite sends_cons_send, sends_cons_say. by constructor.
    + apply IH.
Qed.

(** Every request of the loop holds 1000 points, and the buffer that is
    left holds fewer. *)
Lemma loop_trace_sizes index points ps :
  (length points < 1000)%nat ->
  (fun br => length br.2) <$> sends (loop_trace index points ps).1
  = replicate ((length points + length ps) / 1000) 1000%nat
  /\ length (loop_trace index points ps).2
     = ((length points + length ps) mod 1000)%nat.
Proof.
  revert index points. induction ps as [|p ps IH]; intros index points Hlt.
  - cbn [loop_trace fst snd length]. rewrite Nat.add_0_r.
    rewrite Nat.div_small, Nat.mod_small by done. done.
  - cbn [loop_trace].
    destruct (1000 <=? length (points ++ [p]))%nat eqn:Hfull.
    + apply Nat.leb_le in Hfull. rewrite length_app in Hfull. cbn in Hfull.
      assert (length points = 999%nat) as Hp by lia.
      specialize (IH (S index) [] ltac:(cbn; lia)) as [IH1 IH2].
      destruct (loop_trace (S index) [] ps) as [acts buf]. cbn [fst snd] in *.
      rewrite sends_cons_send, sends_cons_say. cbn [fmap list_fmap snd].
      rewrite IH1, IH2, length_app. cbn [length]. rewrite Hp.
      replace (999 + S (length ps))%nat with (length ps + 1 * 1000)%nat by lia.
      rewrite Nat.div_add, Nat.Div0.mod_add by done.
      rewrite !Nat.add_1_r. done.
    + apply Nat.leb_gt in Hfull. rewrite length_app in Hfull. cbn in Hfull.
      specialize (IH (S index) (points ++ [p])) as [IH1 IH2].
      { rewrite length_app. cbn. lia. }
      rewrite IH1, IH2, length_app. cbn [length].
      replace (length points + 1 + length ps)%nat
        with (length points + S (length ps))%nat by lia.
      done.
Qed.

Lemma batches_eq ps :
  batches ps
  = full_batches ps
    ++ (if bool_decide ((loop_trace 0 [] ps).2 = []) then []
        else [(loop_trace 0 [] ps).2]).
Proof.
  unfold batches, full_batches.
  destruct (loop_trace 0 [] ps) as [acts buf]. cbn [fst snd].
  rewrite sends_app, fmap_app. f_equal. unfold flush_trace.
  by case_bool_decide.
Qed.

(** The requests of a run that meets no failure partition the points. *)
Lemma batches_concat ps : concat (batches ps) = ps.
Proof.
  rewrite batches_eq, concat_app.
  etrans; [|exact (loop_trace_concat 0 [] ps)]. unfold full_batches. f_equal.
  case_bool_decide as Hb; [by rewrite Hb|]. cbn. by rewrite app_nil_r.
Qed.

(** Sizes of the requests: full batches of 1000, then the remainder if
    there is one. *)
Lemma batches_sizes ps :
  length <$> batches ps
  = replicate (length ps / 1000) 1000%nat
    ++ (if (length ps mod 1000 =? 0)%nat then []
        else [(length ps mod 1000)%nat]).
Proof.
  rewrite batches_eq, fmap_app.
  destruct (loop_trace_sizes 0 [] ps) as [H1 H2]; [cbn; lia|].
  cbn [length Nat.add] in *. unfold full_batches.
  rewrite <- list_fmap_compose. unfold compose.
  rewrite H1. f_equal.
  case_bool_decide as Hb.
  - rewrite Hb in H2. cbn [length] in H2. rewrite <- H2. done.
  - destruct (Nat.eqb_spec (length ps mod 1000) 0) as [E|E].
    + rewrite E in H2. by apply nil_length_inv in H2.
    + cbn. by rewrite H2.
Qed.
End Batches.

(** ** Whole runs against a server that accepts the requests *)

Section Runs.
Context {R : Runtime}.

Lemma performed acts e bucket w :
  stamped_sends acts -> calm (requests acts e) (sink w) ->
  (perform acts;; finish e (read_back bucket)) w
  = (outcome e, final_world bucket acts e w).
Proof.
  intros Hst Hc. unfold requests in Hc.
  rewrite bind_at, perform_ok; [|done|by eapply calm_le; [|exact Hc]; lia].
  destruct e as [e|]; cbn [finish outcome final_world]; [done|].
  apply read_back_prints. rewrite effect_outages. apply calm_drop.
  by rewrite Nat.add_1_r in Hc.
Qed.

Lemma Forall_stamped_concat (bs : list (string * list Point)) :
  Forall stamped (concat bs.*2) -> Forall (fun br => Forall stamped br.2) bs.
Proof.
  induction bs as [|[b r] bs IH]; cbn; [constructor|].
  intros [H1 H2]%Forall_app. constructor; auto.
Qed.

Lemma pair_bucket b (l : list (string * list Point)) :
  Forall (fun br => br.1 = b) l -> l = (fun r => (b, r)) <$> l.*2.
Proof.
  induction 1 as [|[b' r] l Hb _ IH]; [done|]. cbn in *. by rewrite <- IH, Hb.
Qed.

(** *** import_ionq_to_influx.py *)

Lemma to_influx_dry_run df ps e :
  points_of df = (ps, e) ->
  (ImportIonqToInflux.dry_run df).2 = e
  /\ sends (ImportIonqToInflux.dry_run df).1
     = (fun r => (ImportIonqToInflux.INFLUX_BUCKET, r))
         <$> (if e is Some _ then ImportIonqToInflux.full_batches ps
              else ImportIonqToInflux.batches ps).
Proof.
  unfold points_of, ImportIonqToInflux.dry_run.
  destruct (convert_dates df) as [df'|e']; [|by intros [= <- <-]].
  intros ->.
  unfold ImportIonqToInflux.batches, ImportIonqToInflux.full_batches.
  pose proof (loop_trace_bucket 0 [] ps) as Hb.
  destruct (ImportIonqToInflux.loop_trace 0 [] ps) as [acts buf].
  cbn [fst snd] in *.
  destruct e as [e|]; cbn [fst snd]; (split; [done|]).
  - cbn [app]. rewrite !sends_cons_say. by apply pair_bucket.
  - cbn [app]. rewrite !sends_cons_say, (app_assoc acts), sends_app.
    cbn. rewrite app_nil_r. apply pair_bucket.
    rewrite sends_app. apply Forall_app. split; [done|].
    unfold ImportIonqToInflux.flush_trace. case_bool_decide; by repeat constructor.
Qed.

Lemma full_batches_prefix ps :
  Forall stamped ps -> Forall stamped (concat (ImportIonqToInflux.full_batches ps)).
Proof.
  intros H. pose proof (loop_trace_concat 0 [] ps) as E. cbn [app] in E.
  rewrite <- E in H. by apply Forall_app in H as [H _].
Qed.

Lemma to_influx_stamped df : stamped_sends (ImportIonqToInflux.dry_run df).1.
Proof.
  destruct (points_of df) as [ps e] eqn:Hps.
  destruct (to_influx_dry_run _ _ _ Hps) as [_ Hs].
  apply points_of_stamped in Hps.
  unfold stamped_sends. rewrite Hs. apply Forall_stamped_concat.
  rewrite <- list_fmap_compose. unfold compose. cbn [snd]. rewrite list_fmap_id.
  destruct e; [by apply full_batches_prefix|by rewrite batches_concat].
Qed.

(** A run against a server that accepts its requests: it ends as its
    conversions end, having done all its actions. *)
Theorem to_influx_run df w :
  calm (requests (ImportIonqToInflux.dry_run df).1
                 (ImportIonqToInflux.dry_run df).2) (sink w) ->
ImportIonqToInflux.import_csv_to_influxdb df w
= (outcome (ImportIonqToInflux.dry_run df).2,
   final_world ImportIonqToInflux.INFLUX_BUCKET
     (ImportIonqToInflux.dry_run df).1 (ImportIonqToInflux.dry_run df).2 w).
Proof.
  intros Hc. rewrite run_trace. apply performed; [|done].
  apply to_influx_stamped.
Qed.

(** *** import_ionq.py *)

Lemma each_sends count ps :
  sends (ImportIonq.loop_trace count ps)
  = (fun p => (ImportIonq.BUCKET, [p])) <$> ps.
Proof.
  revert count. induction ps as [|p ps IH]; intros count; [done|].
  cbn [ImportIonq.loop_trace]. rewrite sends_cons_send, sends_app, IH.
  cbn [fmap list_fmap]. f_equal.
  by destruct ((count + 1) mod 100 =? 0)%nat.
Qed.

Lemma ionq_dry_run df ps e :
  points_of df = (ps, e) ->
  (ImportIonq.dry_run df).2 = e
  /\ sends (ImportIonq.dry_run df).1
     = (fun p => (ImportIonq.BUCKET, [p])) <$> ps.
Proof.
  unfold points_of, ImportIonq.dry_run.
  destruct (convert_dates df) as [df'|e']; [|by intros [= <- <-]].
  intros ->. destruct e as [e|]; cbn [fst snd]; (split; [done|]).
  - rewrite sends_cons_say. apply each_sends.
  - cbn [app]. rewrite sends_cons_say, sends_app, each_sends. cbn.
    by rewrite app_nil_r.
Qed.

Lemma ionq_stamped df : stamped_sends (ImportIonq.dry_run df).1.
Proof.
  destruct (points_of df) as [ps e] eqn:Hps.
  destruct (ionq_dry_run _ _ _ Hps) as [_ Hs].
  apply points_of_stamped in Hps.
  unfold stamped_sends. rewrite Hs. apply Forall_fmap.
  eapply Forall_impl; [exact Hps|]. intros p Hp. cbn. by constructor.
Qed.

Theorem ionq_run df w :
  calm (requests (ImportIonq.dry_run df).1 (ImportIonq.dry_run df).2)
       (sink w) ->
ImportIonq.main df w
= (outcome (ImportIonq.dry_run df).2,
   final_world ImportIonq.BUCKET
     (ImportIonq.dry_run df).1 (ImportIonq.dry_run df).2 w).
Proof.
  intros Hc. rewrite main_trace. apply performed; [|done].
  apply ionq_stamped.
Qed.

(** *** What a finished run leaves behind *)

Lemma final_calls bucket acts e w :
  calls (sink (final_world bucket acts e w)) = calls (sink w) ++ sends acts.
Proof. destruct e; cbn; apply effect_calls. Qed.

Lemma final_store bucket acts e w :
  store (sink (final_world bucket acts e w))
  = put_all (store (sink w)) (sends acts).
Proof. destruct e; cbn; apply effect_store. Qed.

Lemma final_attempts bucket acts e w :
  attempts (sink (final_world bucket acts e w))
  = (attempts (sink w) + length (sends acts))%nat.
Proof. destruct e; cbn; apply effect_attempts. Qed.

Lemma final_written bucket acts e w :
  written w (final_world bucket acts e w) = concat (sends acts).*2.
Proof. unfold written. by rewrite final_calls, drop_app_length. Qed.

Lemma final_sizes bucket acts e w :
  request_sizes w (final_world bucket acts e w)
  = (fun br => length br.2) <$> sends acts.
Proof. unfold request_sizes. by rewrite final_calls, drop_app_length. Qed.
End Runs.

(** * The claims *)

Section BatchBoundary.
Context {R : Runtime}.
Import ImportIonqToInflux.

Lemma points_of_all df ps :
  points_of df = (ps, None) -> length ps = len df.
Proof.
  unfold points_of. destruct (convert_dates df) as [df'|e] eqn:Hdf; [|done].
  intros H%convert_rows_all. rewrite H. unfold rows. rewrite length_fmap.
  by apply convert_dates_len.
Qed.

(** A run whose conversions all succeed, against a server that accepts
    its requests, ends normally having sent the batches of its points. *)
Lemma to_influx_success df w ps :
  points_of df = (ps, None) -> outages (sink w) = [] ->
  exists w',
    import_csv_to_influxdb df w = (Ok tt, w')
    /\ calls (sink w')
       = calls (sink w) ++ ((fun r => (INFLUX_BUCKET, r)) <$> batches ps)
    /\ stdout w'
       = stdout w ++ says (dry_run df).1
         ++ (echo <$> query_last_close INFLUX_BUCKET (sink w'))
    /\ outages (sink w') = [].
Proof.
  intros Hps Ho. destruct (to_influx_dry_run _ _ _ Hps) as [He Hs].
  rewrite to_influx_run, He by by apply calm_nil.
  eexists. split; [done|]. split; [|split].
  - by rewrite final_calls, Hs.
  - cbn. by rewrite effect_stdout, <- app_assoc.
  - cbn. by rewrite effect_outages, Ho, drop_nil.
Qed.

(** C1. With batch size 1000, a file of 2500 rows is written by exactly
    three write calls, of 1000, 1000 and 500 points, in that order. *)
Theorem batch_boundary_2500 df w ps :
  points_of df = (ps, None) ->
  len df = 2500%nat ->
  outages (sink w) = [] ->
  exists w',
    import_csv_to_influxdb df w = (Ok tt, w')
    /\ request_sizes w w' = [1000; 1000; 500]%nat
    /\ written w w' = ps
    /\ attempts (sink w') = (attempts (sink w) + 3)%nat.
Proof.
  intros Hps Hlen Ho.
  pose proof (points_of_all _ _ Hps) as Hn. rewrite Hlen in Hn.
  destruct (to_influx_dry_run _ _ _ Hps) as [He Hs].
  assert (length <$> batches ps = [1000; 1000; 500]%nat) as Hsz.
  { rewrite batches_sizes, Hn. reflexivity. }
  rewrite to_influx_run, He by by apply calm_nil.
  eexists. split; [done|]. split; [|split].
  - rewrite final_sizes, Hs, <- list_fmap_compose. exact Hsz.
  - rewrite final_written, Hs, <- list_fmap_compose. unfold compose. cbn [snd].
    rewrite list_fmap_id. apply batches_concat.
  - rewrite final_attempts, Hs, length_fmap.
    rewrite <- (length_fmap length), Hsz. done.
Qed.
End BatchBoundary.

Lemma batch_boundary_2500_witness :
  exists w',
ImportIonqToInflux.import_csv_to_influxdb Samples.rows_2500 Samples.world
= (Ok tt, w')
/\ request_sizes Samples.world w' = [1000; 1000; 500]%nat
/\ written Samples.world w' = (points_of Samples.rows_2500).1
/\ attempts (sink w') = (attempts (sink Samples.world) + 3)%nat.
Proof.
  apply (batch_boundary_2500 Samples.rows_2500 Samples.world
           (points_of Samples.rows_2500).1).
  - vm_compute. reflexivity.
  - reflexivity.
  - reflexivity.
Defined.

Section SuccessfulRuns.
Context {R : Runtime}.

Lemma ionq_success df w ps :
  points_of df = (ps, None) -> outages (sink w) = [] ->
  exists w',
    ImportIonq.main df w = (Ok tt, w')
    /\ calls (sink w')
       = calls (sink w) ++ ((fun p => (ImportIonq.BUCKET, [p])) <$> ps)
    /\ stdout w'
       = stdout w ++ says (ImportIonq.dry_run df).1
         ++ (echo <$> query_last_close ImportIonq.BUCKET (sink w'))
    /\ outages (sink w') = [].
Proof.
  intros Hps Ho. destruct (ionq_dry_run _ _ _ Hps) as [He Hs].
  rewrite ionq_run, He by by apply calm_nil.
  eexists. split; [done|]. split; [|split].
  - by rewrite final_calls, Hs.
  - cbn. by rewrite effect_stdout, <- app_assoc.
  - cbn. by rewrite effect_outages, Ho, drop_nil.
Qed.

Lemma written_calls w w' (reqs : list (string * list Point)) :
  calls (sink w') = calls (sink w) ++ reqs -> written w w' = concat reqs.*2.
Proof. intros H. unfold written. by rewrite H, drop_app_length. Qed.

Lemma concat_singletons (ps : list Point) :
  concat ((fun p => (ImportIonq.BUCKET, [p])) <$> ps).*2 = ps.
Proof. induction ps as [|p ps IH]; [done|]. cbn. by rewrite IH. Qed.

Lemma concat_batches (ps : list Point) :
  concat ((fun r => (ImportIonqToInflux.INFLUX_BUCKET, r))
            <$> ImportIonqToInflux.batches ps).*2 = ps.
Proof.
  rewrite <- list_fmap_compose. unfold compose. cbn [snd].
  rewrite list_fmap_id. apply batches_concat.
Qed.

Lemma points_of_every_row df ps :
  points_of df = (ps, None) -> Forall2 point_of_row (rows df) ps.
Proof.
  intros Hps. pose proof (points_of_rows _ _ _ Hps) as H.
  rewrite take_ge in H; [done|].
  rewrite (points_of_all _ _ Hps). unfold rows, len. by rewrite length_fmap.
Qed.

(** C9. Every input row is written as one point of measurement
    [ionq_stock] whose time is the row's parsed date and whose fields are
    exactly open, high, low, close (floats) and volume (integer), by
    both import scripts. *)
Theorem rows_written_as_points df w ps :
  points_of df = (ps, None) ->
  outages (sink w) = [] ->
  Forall2 point_of_row (rows df) ps
  /\ (exists w', ImportIonqToInflux.import_csv_to_influxdb df w = (Ok tt, w')
                 /\ written w w' = ps)
  /\ (exists w', ImportIonq.main df w = (Ok tt, w') /\ written w w' = ps).
Proof.
  intros Hps Ho. split; [by apply points_of_every_row|]. split.
  - destruct (to_influx_success _ _ _ Hps Ho) as (w' & Hrun & Hc & _).
    exists w'. split; [done|]. rewrite (written_calls _ _ _ Hc).
    apply concat_batches.
  - destruct (ionq_success _ _ _ Hps Ho) as (w' & Hrun & Hc & _).
    exists w'. split; [done|]. rewrite (written_calls _ _ _ Hc).
    apply concat_singletons.
Qed.

(** C2, as the code has it. After the rows are written the run reads
    back the most recent close and prints what the read returns; the
    value is compared with nothing, and the run ends normally whatever
    the read returns. *)
Theorem verification_only_prints df w ps :
  points_of df = (ps, None) ->
  outages (sink w) = [] ->
  (exists w',
     ImportIonqToInflux.import_csv_to_influxdb df w = (Ok tt, w')
     /\ stdout w'
        = stdout w ++ says (ImportIonqToInflux.dry_run df).1
          ++ (echo <$> query_last_close ImportIonqToInflux.INFLUX_BUCKET
                         (sink w')))
  /\ (exists w',
        ImportIonq.main df w = (Ok tt, w')
        /\ stdout w'
           = stdout w ++ says (ImportIonq.dry_run df).1
             ++ (echo <$> query_last_close ImportIonq.BUCKET (sink w'))).
Proof.
  intros Hps Ho. split.
  - destruct (to_influx_success _ _ _ Hps Ho) as (w' & Hrun & _ & Hout & _).
    by exists w'.
  - destruct (ionq_success _ _ _ Hps Ho) as (w' & Hrun & _ & Hout & _).
    by exists w'.
Qed.



End SuccessfulRuns.

Section OneRequestPerRow.
Context {R : Runtime}.

(** [import_ionq.py] does not batch: it makes one write call per row,
    each with a single point. *)
Lemma one_request_per_row df w ps :
  points_of df = (ps, None) ->
  outages (sink w) = [] ->
  exists w',
    ImportIonq.main df w = (Ok tt, w')
    /\ request_sizes w w' = replicate (len df) 1%nat.
Proof.
  intros Hps Ho. destruct (ionq_success _ _ _ Hps Ho) as (w' & Hrun & Hc & _).
  exists w'. split; [done|]. unfold request_sizes.
  rewrite Hc, drop_app_length, <- list_fmap_compose.
  rewrite <- (points_of_all _ _ Hps). clear.
  induction ps as [|p ps IH]; [reflexivity|].
  cbn [fmap list_fmap compose snd length replicate]. f_equal. exact IH.
Qed.
End OneRequestPerRow.

(** ** Runs on the sample frames *)

Lemma rows_written_as_points_witness :
  Forall2 point_of_row (rows Samples.one_row) (points_of Samples.one_row).1
  /\ (exists w',
        ImportIonqToInflux.import_csv_to_influxdb Samples.one_row Samples.world
        = (Ok tt, w')
        /\ written Samples.world w' = (points_of Samples.one_row).1)
  /\ (exists w',
        ImportIonq.main Samples.one_row Samples.world = (Ok tt, w')
        /\ written Samples.world w' = (points_of Samples.one_row).1).
Proof.
  apply (rows_written_as_points Samples.one_row Samples.world
           (points_of Samples.one_row).1).
  - vm_compute. reflexivity.
  - reflexivity.
Defined.

(** The scenario of the specification: the one row
    [2021-01-01, 10.00, 11.00, 9.50, 10.50, 1000] is written as this
    point. *)
Example one_row_point :
  (points_of Samples.one_row).1
  = [{| p_name := "ionq_stock";
        p_time := Some (VTime 1609459200000000000);
        p_fields := [("open", FFloat 10); ("high", FFloat 11);
                     ("low", FFloat 9.5); ("close", FFloat 10.5);
                     ("volume", FInt 1000)] |}].
Proof. vm_compute. reflexivity. Qed.

(** C2, counterexample. On a file whose rows run from the latest day to
    the earliest, the run ends normally although the close it reads back
    (12.0, of 2021-01-04) is not the close of the last record it wrote
    (10.5, of 2021-01-01). *)
Lemma verification_not_enforced :
  ¬ success_means_verified ImportIonqToInflux.INFLUX_BUCKET
      (ImportIonqToInflux.import_csv_to_influxdb Samples.latest_first)
      Samples.world.
Proof.
  intros H.
  destruct (H (ImportIonqToInflux.import_csv_to_influxdb
                 Samples.latest_first Samples.world).2)
    as (p & c & Hlast & Hclose & Hread).
  { vm_compute. reflexivity. }
  vm_compute in Hlast. injection Hlast as <-.
  vm_compute in Hclose. injection Hclose as <-.
  vm_compute in Hread.
  apply (f_equal (fun l => match l with
                           | [FFloat x] => PrimFloat.ltb x 11
                           | _ => false
                           end)) in Hread.
  vm_compute in Hread. discriminate.
Qed.

(** Read five years later, the same kind of run finds no close within
    the query range, prints no close at all and still ends normally. *)
Example verification_reads_nothing :
  let r := ImportIonqToInflux.import_csv_to_influxdb Samples.one_row
             Samples.late_world in
  r.1 = Ok tt
  /\ query_last_close ImportIonqToInflux.INFLUX_BUCKET (sink r.2) = []
  /\ stdout r.2 = [MsgReading ImportIonqToInflux.CSV_FILE; MsgFound 1;
                   MsgSuccess 1].
Proof. vm_compute. repeat split; reflexivity. Qed.

Lemma verification_only_prints_witness :
  exists w',
    ImportIonqToInflux.import_csv_to_influxdb Samples.latest_first Samples.world
    = (Ok tt, w')
    /\ last (stdout w') = Some (MsgLastClose (FFloat 12) 1609718400000000000).
Proof.
  destruct (verification_only_prints Samples.latest_first Samples.world
              (points_of Samples.latest_first).1) as [(w' & Hrun & Hout) _].
  - vm_compute. reflexivity.
  - reflexivity.
  - exists w'. split; [exact Hrun|].
    rewrite Hout.
    replace w' with (ImportIonqToInflux.import_csv_to_influxdb
                       Samples.latest_first Samples.world).2
      by (rewrite Hrun; reflexivity).
    vm_compute. reflexivity.
Defined.





(** ** Runs that stop early *)

Section EarlyStops.
Context {R : Runtime}.

Lemma numeric_failure_raises row :
  numeric_failure row -> is_ok (build_point row) = false.
Proof.
  intros Hf. unfold build_point.
  destruct (row_getitem row "Date") as [d|]; [|done]. cbn [mbind result_bind].
  destruct (row_getitem row "Open") as [vo|] eqn:Ho; [|done].
  cbn [mbind result_bind].
  destruct (py_float vo) as [o|] eqn:Eo; [|done].
  destruct (row_getitem row "High") as [vh|] eqn:Hh; [|done].
  cbn [mbind result_bind].
  destruct (py_float vh) as [h|] eqn:Eh; [|done].
  destruct (row_getitem row "Low") as [vl|] eqn:Hl; [|done].
  cbn [mbind result_bind].
  destruct (py_float vl) as [l|] eqn:El; [|done].
  destruct (row_getitem row "Close") as [vc|] eqn:Hc; [|done].
  cbn [mbind result_bind].
  destruct (py_float vc) as [c|] eqn:Ec; [|done].
  destruct (row_getitem row "Volume") as [vv|] eqn:Hv; [|done].
  cbn [mbind result_bind].
  destruct (py_int vv) as [v|] eqn:Ev; [|done].
  exfalso. destruct Hf as [(col & x & Hcol & Hx & Hbad)|(x & Hx & Hbad)].
  - rewrite !elem_of_cons, elem_of_nil in Hcol.
    destruct Hcol as [->|[->|[->|[->|[]]]]];
      first [ rewrite Ho in Hx | rewrite Hh in Hx
            | rewrite Hl in Hx | rewrite Hc in Hx ];
      injection Hx as <-;
      first [ by rewrite Eo in Hbad | by rewrite Eh in Hbad
            | by rewrite El in Hbad | by rewrite Ec in Hbad ].
  - rewrite Hv in Hx. injection Hx as <-. by rewrite Ev in Hbad.
Qed.

(** C10. When a numeric conversion fails at some row during the import
    loop, the run dies there with the exception, unhandled, and what was
    written for the earlier rows stays in the bucket: the batches already
    flushed by [import_ionq_to_influx.py] (the points still in its buffer
    are never sent), every earlier point by [import_ionq.py].  Nothing is
    rolled back. *)
Theorem partial_import_persists df df' w ps e :
  convert_dates df = Ok df' ->
  convert_rows (rows df') = (ps, Some e) ->
  outages (sink w) = [] ->
  (forall row, numeric_failure row -> is_ok (build_point row) = false)
  /\ (exists w',
        ImportIonqToInflux.import_csv_to_influxdb df w = (Raise e, w')
        /\ request_sizes w w' = replicate (length ps / 1000) 1000%nat
        /\ written w w' = concat (ImportIonqToInflux.full_batches ps)
        /\ store (sink w')
           = put_all (store (sink w))
               ((fun r => (ImportIonqToInflux.INFLUX_BUCKET, r))
                  <$> ImportIonqToInflux.full_batches ps))
  /\ (exists w',
        ImportIonq.main df w = (Raise e, w')
        /\ written w w' = ps
        /\ store (sink w')
           = put_all (store (sink w))
               ((fun p => (ImportIonq.BUCKET, [p])) <$> ps)).
Proof.
  intros Hdf Hrows Ho.
  assert (points_of df = (ps, Some e)) as Hps.
  { unfold points_of. by rewrite Hdf. }
  split; [apply numeric_failure_raises|]. split.
  - destruct (to_influx_dry_run _ _ _ Hps) as [He Hs].
    rewrite to_influx_run, He by by apply calm_nil.
    eexists. split; [done|]. split; [|split].
    + rewrite final_sizes, Hs, <- list_fmap_compose.
      destruct (loop_trace_sizes 0 [] ps) as [H1 _]; [cbn; lia|].
      unfold ImportIonqToInflux.full_batches.
      rewrite <- list_fmap_compose. exact H1.
    + rewrite final_written, Hs, <- list_fmap_compose. unfold compose.
      cbn [snd]. by rewrite list_fmap_id.
    + by rewrite final_store, Hs.
  - destruct (ionq_dry_run _ _ _ Hps) as [He Hs].
    rewrite ionq_run, He by by apply calm_nil.
    eexists. split; [done|]. split.
    + rewrite final_written, Hs. apply concat_singletons.
    + by rewrite final_store, Hs.
Qed.
End EarlyStops.

Lemma partial_import_persists_witness :
  (exists w',
     ImportIonqToInflux.import_csv_to_influxdb Samples.rows_1500_bad_1200
       Samples.world = (Raise ValueError, w')
     /\ request_sizes Samples.world w' = [1000%nat])
  /\ (exists w',
        ImportIonq.main Samples.rows_1500_bad_1200 Samples.world
        = (Raise ValueError, w')
        /\ length (written Samples.world w') = 1200%nat).
Proof.
  destruct (partial_import_persists Samples.rows_1500_bad_1200
              (default Samples.one_row
                 (match convert_dates Samples.rows_1500_bad_1200 with
                  | Ok df' => Some df' | Raise _ => None end))
              Samples.world
              (points_of Samples.rows_1500_bad_1200).1 ValueError)
    as (_ & (w1 & Hrun1 & Hsz & _) & (w2 & Hrun2 & Hw & _)).
  - vm_compute. reflexivity.
  - vm_compute. reflexivity.
  - reflexivity.
  - split.
    + exists w1. split; [exact Hrun1|]. rewrite Hsz. vm_compute. reflexivity.
    + exists w2. split; [exact Hrun2|]. rewrite Hw. vm_compute. reflexivity.
Defined.

(** ** Runs against a server that refuses a request *)

Section Refusals.
Context {R : Runtime}.

Lemma split_send acts k :
  (k < length (sends acts))%nat ->
  exists pre b r post,
    acts = pre ++ Send b r :: post /\ sends pre = take k (sends acts).
Proof.
  revert k. induction acts as [|[b r|m] acts IH]; intros k Hk.
  - cbn in Hk. lia.
  - rewrite sends_cons_send in *. destruct k as [|k].
    + by exists [], b, r, acts.
    + cbn [length] in Hk.
      destruct (IH k ltac:(lia)) as (pre & b' & r' & post & -> & Hpre).
      exists (Send b r :: pre), b', r', post. split; [done|].
      rewrite sends_cons_send. cbn [take]. by rewrite Hpre.
  - rewrite sends_cons_say in *.
    destruct (IH k Hk) as (pre & b' & r' & post & -> & Hpre).
    exists (Say m :: pre), b', r', post. split; [done|].
    by rewrite sends_cons_say.
Qed.

(** The first request the server refuses ends the run: the request is
    made once, the requests before it stay accepted, none follows. *)
Lemma refused acts e bucket w k later :
  stamped_sends acts ->
  (k < length (sends acts))%nat ->
  outages (sink w) = replicate k false ++ true :: later ->
  exists w',
    (perform acts;; finish e (read_back bucket)) w = (Raise ApiException, w')
    /\ calls (sink w') = calls (sink w) ++ take k (sends acts)
    /\ attempts (sink w') = (attempts (sink w) + k + 1)%nat
    /\ outages (sink w') = later.
Proof.
  intros Hst Hk Ho.
  destruct (split_send _ _ Hk) as (pre & b & r & post & -> & Hpre).
  assert (length (sends pre) = k) as Hlen.
  { rewrite Hpre, length_take. lia. }
  eexists. split.
  - apply bind_raise. apply perform_refused.
    + unfold stamped_sends in *. rewrite sends_app in *.
      apply Forall_app in Hst as [H1 H2]. apply Forall_app. split; [done|].
      rewrite sends_cons_send in H2. inversion H2; subst.
      by repeat constructor.
    + unfold calm. rewrite Hlen, Ho, take_app_length'
        by by rewrite length_replicate.
      apply Forall_forall. by intros x [-> _]%elem_of_replicate.
    + rewrite Hlen, Ho. rewrite lookup_app_r by by rewrite length_replicate.
      by rewrite length_replicate, Nat.sub_diag.
  - cbn. rewrite effect_calls, effect_attempts, effect_outages, Hlen, Ho, Hpre.
    split; [done|]. split; [lia|].
    rewrite drop_app_length' by by rewrite length_replicate. done.
Qed.

(** C4, as the code has it. A write call is made once. When the server
    refuses the request of some batch, the exception of the client ends
    the run at once: the batches before it stay written, that batch and
    the ones after it are not, and no request is repeated. *)
Theorem write_failure_aborts df w ps k later :
  points_of df = (ps, None) ->
  outages (sink w) = replicate k false ++ true :: later ->
  ((k < length (ImportIonqToInflux.batches ps))%nat ->
   exists w',
     ImportIonqToInflux.import_csv_to_influxdb df w = (Raise ApiException, w')
     /\ calls (sink w')
        = calls (sink w)
          ++ ((fun r => (ImportIonqToInflux.INFLUX_BUCKET, r))
                <$> take k (ImportIonqToInflux.batches ps))
     /\ attempts (sink w') = (attempts (sink w) + k + 1)%nat
     /\ outages (sink w') = later)
  /\ ((k < length ps)%nat ->
      exists w',
        ImportIonq.main df w = (Raise ApiException, w')
        /\ calls (sink w')
           = calls (sink w)
             ++ ((fun p => (ImportIonq.BUCKET, [p])) <$> take k ps)
        /\ attempts (sink w') = (attempts (sink w) + k + 1)%nat
        /\ outages (sink w') = later).
Proof.
  intros Hps Ho. split; intros Hk.
  - destruct (to_influx_dry_run _ _ _ Hps) as [He Hs].
    rewrite run_trace. rewrite fmap_take, <- Hs.
    apply refused; [apply to_influx_stamped| |done].
    by rewrite Hs, length_fmap.
  - destruct (ionq_dry_run _ _ _ Hps) as [He Hs].
    rewrite main_trace. rewrite fmap_take, <- Hs.
    apply refused; [apply ionq_stamped| |done].
    by rewrite Hs, length_fmap.
Qed.
End Refusals.

(** C4, counterexample. The server refuses two requests and would accept
    the third. The run over one row makes a single request and dies with
    the exception of the client; the row is not written. *)
Lemma no_retry_on_failure :
  ¬ retries_until_accepted (points_of Samples.one_row).1
      (ImportIonqToInflux.import_csv_to_influxdb Samples.one_row)
      Samples.flaky_world.
Proof.
  intros H. destruct (H [] eq_refl) as (w' & Hrun & _).
  vm_compute in Hrun. discriminate.
Qed.

Lemma write_failure_aborts_witness :
  exists w',
    ImportIonqToInflux.import_csv_to_influxdb Samples.one_row Samples.flaky_world
    = (Raise ApiException, w')
    /\ calls (sink w') = []
    /\ attempts (sink w') = 1%nat
    /\ outages (sink w') = [true; false].
Proof.
  destruct (write_failure_aborts Samples.one_row Samples.flaky_world
              (points_of Samples.one_row).1 0 [true; false])
    as [Hto _].
  - vm_compute. reflexivity.
  - reflexivity.
  - destruct Hto as (w' & Hrun & Hc & Ha & Ho).
    + vm_compute. lia.
    + exists w'. split; [exact Hrun|]. split; [exact Hc|].
      split; [exact Ha|exact Ho].
Defined.

(** ** Missing columns *)

Section MissingColumns.
Context {R : Runtime}.

Lemma get_loc_None key cols : key ∉ cols -> get_loc key cols = None.
Proof.
  induction cols as [|c cols IH]; [done|].
  intros [Hne Hin]%not_elem_of_cons. cbn.
  destruct (String.eqb_spec c key) as [->|_]; [done|].
  by rewrite IH.
Qed.


Ltac getitem_step row k f :=
  try done;
  destruct (row_getitem row k) as [?|]; cbn [mbind result_bind is_ok];
  try done;
  destruct (f _) as [?|]; cbn [mbind result_bind is_ok]; try done.

Lemma build_point_missing row c :
  c ∈ required_columns -> c ∉ s_index row -> is_ok (build_point row) = false.
Proof.
  intros Hc Hmiss. apply get_loc_None in Hmiss.
  assert (row_getitem row c = Raise (KeyError c)) as Hget.
  { unfold row_getitem. by rewrite Hmiss. }
  unfold required_columns in Hc. rewrite !elem_of_cons, elem_of_nil in Hc.
  unfold build_point.
  destruct Hc as [->|[->|[->|[->|[->|[->|[]]]]]]]; rewrite ?Hget;
    cbn [mbind result_bind is_ok]; try done;
    (destruct (row_getitem row "Date") as [?|];
     cbn [mbind result_bind is_ok]; [|done]);
    getitem_step row "Open" py_float; getitem_step row "High" py_float;
    getitem_step row "Low" py_float; getitem_step row "Close" py_float;
    getitem_step row "Volume" py_int.
Qed.

Lemma only_says acts w : sends acts = [] -> sink (foldl effect w acts) = sink w.
Proof.
  revert w. induction acts as [|[b r|m] acts IH]; intros w Hs; [done| |].
  - by rewrite sends_cons_send in Hs.
  - cbn [foldl]. rewrite IH; done.
Qed.

(** A run whose conversions fail before the first point is built dies
    with that exception and sends nothing. *)
Lemma nothing_built df e w :
  points_of df = ([], Some e) ->
  (exists w', ImportIonqToInflux.import_csv_to_influxdb df w = (Raise e, w')
              /\ sink w' = sink w)
  /\ (exists w', ImportIonq.main df w = (Raise e, w') /\ sink w' = sink w).
Proof.
  intros Hps. split.
  - destruct (to_influx_dry_run _ _ _ Hps) as [He Hs].
    rewrite to_influx_run; unfold requests; rewrite He, ?Hs; [|constructor].
    eexists. split; [done|]. cbn [final_world]. by apply only_says.
  - destruct (ionq_dry_run _ _ _ Hps) as [He Hs].
    rewrite ionq_run; unfold requests; rewrite He, ?Hs; [|constructor].
    eexists. split; [done|]. cbn [final_world]. by apply only_says.
Qed.

Lemma get_loc_elem key cols : key ∈ cols -> is_Some (get_loc key cols).
Proof.
  induction cols as [|c cols IH]; [by intros ?%elem_of_nil|].
  cbn. destruct (String.eqb_spec c key) as [->|Hne]; [by eexists|].
  intros [?|Hin]%elem_of_cons; [congruence|].
  destruct (IH Hin) as [i ->]. by eexists.
Qed.

(** Without a Date column the date conversion raises [KeyError]. *)
Lemma convert_dates_missing df :
  "Date" ∉ columns df -> convert_dates df = Raise (KeyError "Date").
Proof.
  intros H%get_loc_None. unfold convert_dates, df_getitem. by rewrite H.
Qed.

(** With no data row the date conversion only needs the column. *)
Lemma convert_dates_empty df :
  values df = [] -> "Date" ∈ columns df ->
  convert_dates df = Ok {| columns := columns df; values := [] |}.
Proof.
  intros Hrows [i Hi]%get_loc_elem.
  unfold convert_dates, df_getitem, df_setitem. by rewrite Hi, Hrows.
Qed.

(** What both scripts do with a file that has no data row. *)
Lemma empty_dry_runs df :
  values df = [] -> "Date" ∈ columns df ->
  ImportIonqToInflux.dry_run df
  = ([Say (MsgReading ImportIonqToInflux.CSV_FILE); Say (MsgFound 0);
      Say (MsgSuccess 0)], None)
  /\ ImportIonq.dry_run df = ([Say (MsgLoading 0); Say (MsgSuccess 0)], None).
Proof.
  intros Hrows Hdate. pose proof (convert_dates_empty df Hrows Hdate) as Hdf.
  unfold ImportIonqToInflux.dry_run, ImportIonq.dry_run. by rewrite Hdf.
Qed.

Lemma calm_one s : head (outages s) ≠ Some true -> calm 1 s.
Proof.
  unfold calm. destruct (outages s) as [|[] l]; cbn; [constructor|done|].
  intros _. rewrite take_0. by repeat constructor.
Qed.

(** With a data row, a missing column stops the conversions before the
    first point is built: at the dates, or in the first row. *)
Lemma first_row_fails df c :
  c ∈ required_columns -> c ∉ columns df -> values df ≠ [] ->
  exists e,
    points_of df = ([], Some e)
    /\ (convert_dates df = Raise e
        \/ exists df' row,
             convert_dates df = Ok df'
             /\ head (iterrows df') = Some (0%nat, row)
             /\ build_point row = Raise e).
Proof.
  intros Hc Hmiss Hne. unfold points_of.
  destruct (convert_dates df) as [df'|e] eqn:Hdf;
    [|exists e; split; [done|by left]].
  pose proof (convert_dates_inv _ _ Hdf) as (i & Hi & Hcols & Hvals).
  unfold rows. destruct (values df') as [|r' l'] eqn:Hv.
  { by apply Forall2_nil_inv_r in Hvals. }
  cbn [fmap list_fmap convert_rows].
  pose proof (build_point_missing
                {| s_index := columns df'; s_data := r' |} c Hc) as Hbad.
  cbn [s_index] in Hbad. rewrite <- Hcols in Hmiss. specialize (Hbad Hmiss).
  destruct (build_point _) as [p|e] eqn:Hp; [done|]. exists e.
  split; [done|]. right.
  exists df', {| s_index := columns df'; s_data := r' |}.
  split; [done|]. split; [|done]. unfold iterrows, rows. by rewrite Hv.
Qed.

(** C7, as the code has it. The header is never checked. A missing Date
    column makes both import scripts die with [KeyError('Date')] when
    the dates are converted, before the loop and whatever the rows are.
    When any required column is missing and the file has a data row, the
    run dies no later than the first row: with the exception of the date
    conversion if that raises, and otherwise with the exception of the
    first row's [Point] expression. In both cases nothing is sent. A
    file with a Date column and no data row is imported without error
    and without any write, whatever other columns it lacks, when the
    server answers the query of the verification block. *)
Theorem missing_column_raises df c w :
  c ∈ required_columns ->
  c ∉ columns df ->
  (c = "Date" ->
   ImportIonqToInflux.import_csv_to_influxdb df w
   = (Raise (KeyError "Date"),
      {| sink := sink w;
         stdout := stdout w ++ [MsgReading ImportIonqToInflux.CSV_FILE] |})
   /\ ImportIonq.main df w = (Raise (KeyError "Date"), w))
  /\ (values df ≠ [] ->
      exists e,
        (convert_dates df = Raise e
         \/ exists df' row,
              convert_dates df = Ok df'
              /\ head (iterrows df') = Some (0%nat, row)
              /\ build_point row = Raise e)
        /\ (exists w',
              ImportIonqToInflux.import_csv_to_influxdb df w = (Raise e, w')
              /\ sink w' = sink w)
        /\ (exists w', ImportIonq.main df w = (Raise e, w')
                       /\ sink w' = sink w))
  /\ (values df = [] -> "Date" ∈ columns df ->
      head (outages (sink w)) ≠ Some true ->
      (exists w',
         ImportIonqToInflux.import_csv_to_influxdb df w = (Ok tt, w')
         /\ calls (sink w') = calls (sink w)
         /\ attempts (sink w') = attempts (sink w)
         /\ store (sink w') = store (sink w))
      /\ (exists w',
            ImportIonq.main df w = (Ok tt, w')
            /\ calls (sink w') = calls (sink w)
            /\ attempts (sink w') = attempts (sink w)
            /\ store (sink w') = store (sink w))).
Proof.
  intros Hc Hmiss. split; [|split].
  - intros ->. pose proof (convert_dates_missing df Hmiss) as Hdf. split.
    + rewrite to_influx_run; unfold ImportIonqToInflux.dry_run, requests;
        rewrite Hdf; [done|constructor].
    + rewrite ionq_run; unfold ImportIonq.dry_run, requests; rewrite Hdf;
        [by destruct w|constructor].
  - intros Hne.
    destruct (first_row_fails df c Hc Hmiss Hne) as (e & Hps & Hwhere).
    exists e. split; [exact Hwhere|]. by apply nothing_built.
  - intros Hrows Hdate Ho%calm_one.
    destruct (empty_dry_runs df Hrows Hdate) as [Hto Hio]. split.
    + rewrite to_influx_run, Hto by (by rewrite Hto).
      eexists. split; [done|].
      rewrite final_calls, final_attempts, final_store. cbn.
      by rewrite app_nil_r, Nat.add_0_r.
    + rewrite ionq_run, Hio by (by rewrite Hio).
      eexists. split; [done|].
      rewrite final_calls, final_attempts, final_store. cbn.
      by rewrite app_nil_r, Nat.add_0_r.
Qed.
End MissingColumns.

(** C7, counterexample. A file whose header lacks Volume and that holds
    no data row is imported without any error. *)
Lemma missing_column_unnoticed :
  ¬ rejects_missing_column Samples.header_only_no_volume
      (ImportIonqToInflux.import_csv_to_influxdb Samples.header_only_no_volume)
      Samples.world.
Proof.
  intros H.
  assert (is_ok (ImportIonqToInflux.import_csv_to_influxdb
                   Samples.header_only_no_volume Samples.world).1 = false) as E.
  { apply H. exists "Volume". split.
    - apply (bool_decide_unpack _). vm_compute. reflexivity.
    - apply (bool_decide_unpack _). vm_compute. reflexivity. }
  vm_compute in E. discriminate.
Qed.

Lemma missing_column_raises_witness :
  (exists e w',
     ImportIonqToInflux.import_csv_to_influxdb Samples.one_row_no_volume
       Samples.world = (Raise e, w')
     /\ sink w' = sink Samples.world)
  /\ ImportIonq.main Samples.one_row_no_date Samples.world
     = (Raise (KeyError "Date"), Samples.world)
  /\ (exists w',
        ImportIonq.main Samples.header_only_no_volume Samples.world
        = (Ok tt, w')
        /\ calls (sink w') = []).
Proof.
  split; [|split].
  - destruct (missing_column_raises Samples.one_row_no_volume "Volume"
                Samples.world) as (_ & Hrow & _).
    + apply (bool_decide_unpack _). vm_compute. reflexivity.
    + apply (bool_decide_unpack _). vm_compute. reflexivity.
    + destruct Hrow as (e & _ & (w' & Hrun & Hsink) & _); [discriminate|].
      exists e, w'. split; [exact Hrun|exact Hsink].
  - destruct (missing_column_raises Samples.one_row_no_date "Date"
                Samples.world) as (Hdate & _ & _).
    + apply (bool_decide_unpack _). vm_compute. reflexivity.
    + apply (bool_decide_unpack _). vm_compute. reflexivity.
    + destruct Hdate as [_ Hrun]; [reflexivity|]. exact Hrun.
  - destruct (missing_column_raises Samples.header_only_no_volume "Volume"
                Samples.world) as (_ & _ & Hempty).
    + apply (bool_decide_unpack _). vm_compute. reflexivity.
    + apply (bool_decide_unpack _). vm_compute. reflexivity.
    + destruct Hempty as [_ (w' & Hrun & Hc & _)].
      * reflexivity.
      * apply (bool_decide_unpack _). vm_compute. reflexivity.
      * discriminate.
      * exists w'. split; [exact Hrun|exact Hc].
Defined.

(** ** Writing the same input again *)

Section Overlay.

Lemma lookup_overlay (a b : gmap key (gmap string field_value)) k :
  overlay a b !! k = union_with (fun x y => Some (x ∪ y)) (a !! k) (b !! k).
Proof. apply lookup_union_with. Qed.

Lemma overlay_empty_l (a : gmap key (gmap string field_value)) : overlay ∅ a = a.
Proof.
  apply map_eq. intros k. rewrite lookup_overlay, lookup_empty.
  by destruct (a !! k).
Qed.

Lemma overlay_empty_r (a : gmap key (gmap string field_value)) : overlay a ∅ = a.
Proof.
  apply map_eq. intros k. rewrite lookup_overlay, lookup_empty.
  by destruct (a !! k).
Qed.

Lemma overlay_assoc (a b c : gmap key (gmap string field_value)) :
  overlay a (overlay b c) = overlay (overlay a b) c.
Proof.
  apply map_eq. intros k. rewrite !lookup_overlay.
  destruct (a !! k), (b !! k), (c !! k); cbn; try done.
  by rewrite (assoc_L (∪)).
Qed.

Lemma overlay_twice (a c : gmap key (gmap string field_value)) :
  overlay a (overlay a c) = overlay a c.
Proof.
  apply map_eq. intros k. rewrite !lookup_overlay.
  destruct (a !! k) as [x|], (c !! k) as [y|]; cbn; try done.
  - by rewrite (assoc_L (∪)), (idemp_L (∪)).
  - by rewrite (idemp_L (∪)).
Qed.

Lemma put_point_overlay b st p :
  put_point b st (stamp p, p) = overlay (point_map b p) st.
Proof.
  unfold put_point, point_map. cbn [fst snd].
  destruct (List.filter storable (p_fields p)) as [|f fs];
    [by rewrite overlay_empty_l|].
  apply map_eq. intros k.
  rewrite lookup_overlay. unfold key in *.
  destruct (decide ((b, p_name p, stamp p) = k)) as [<-|Hne].
  - rewrite lookup_insert_eq, lookup_singleton_eq.
    destruct (st !! (b, p_name p, stamp p)); cbn; [done|].
    by rewrite (right_id_L ∅ (∪)).
  - rewrite lookup_insert_ne, lookup_singleton_ne by done.
    by destruct (st !! k).
Qed.

Lemma put_all_flat st reqs :
  put_all st reqs = foldl put_bucket_point st (bucket_points reqs).
Proof.
  revert st. induction reqs as [|[b r] reqs IH]; intros st; [done|].
  unfold bucket_points. cbn [mbind list_bind]. fold (bucket_points reqs).
  rewrite foldl_app, <- IH. cbn [put_all foldl fst snd]. f_equal.
  generalize st. induction r as [|p r IHr]; intros st'; [done|].
  cbn. apply IHr.
Qed.

Lemma foldl_put_overlay st l :
  foldl put_bucket_point st l = overlay (foldl put_bucket_point ∅ l) st.
Proof.
  revert st. induction l as [|[b p] l IH]; intros st.
  - cbn. by rewrite overlay_empty_l.
  - cbn [foldl]. rewrite IH. rewrite (IH (put_bucket_point ∅ (b, p))).
    unfold put_bucket_point. cbn [fst snd]. rewrite !put_point_overlay.
    by rewrite overlay_empty_r, overlay_assoc.
Qed.

(** Putting the same requests a second time changes nothing. *)
Lemma put_all_twice st reqs : put_all (put_all st reqs) reqs = put_all st reqs.
Proof.
  rewrite !put_all_flat.
  rewrite (foldl_put_overlay (foldl _ _ _)), (foldl_put_overlay st).
  apply overlay_twice.
Qed.
End Overlay.

Section Rerun.
Context {R : Runtime}.

Lemma final_outages bucket acts e w :
  outages (sink (final_world bucket acts e w))
  = drop (requests acts e) (outages (sink w)).
Proof.
  unfold requests.
  destruct e; cbn [final_world after_read_back sink asked outages].
  - rewrite Nat.add_0_r. apply effect_outages.
  - rewrite effect_outages, <- drop_drop. by destruct (drop _ _).
Qed.

Lemma analyze_twice df db :
  (AnalyzeIonqLocal.main df (AnalyzeIonqLocal.main df db).2).2
  = (AnalyzeIonqLocal.main df db).2.
Proof.
  unfold AnalyzeIonqLocal.main.
  destruct (AnalyzeIonqLocal.coerce df) as [df'|e]; [|done].
  unfold AnalyzeIonqLocal.to_sql, AnalyzeIonqLocal.Database in *.
  destruct (db !! "ionq_prices") as [old|]; cbn [snd];
    rewrite lookup_insert_eq; cbn [snd]; by rewrite insert_insert_eq.
Qed.

(** C6. Running a script again on the same input leaves the destination
    as the first run left it: the points of the second run fall on the
    points of the first, timestamp by timestamp, and the SQLite table is
    replaced by an equal one. *)
Theorem rerun_idempotent df w db :
  outages (sink w) = [] ->
  store (sink (ImportIonqToInflux.import_csv_to_influxdb df
                 (ImportIonqToInflux.import_csv_to_influxdb df w).2).2)
  = store (sink (ImportIonqToInflux.import_csv_to_influxdb df w).2)
  /\ store (sink (ImportIonq.main df (ImportIonq.main df w).2).2)
     = store (sink (ImportIonq.main df w).2)
  /\ (AnalyzeIonqLocal.main df (AnalyzeIonqLocal.main df db).2).2
     = (AnalyzeIonqLocal.main df db).2.
Proof.
  intros Ho. split; [|split; [|apply analyze_twice]].
  - rewrite (to_influx_run df w) by by apply calm_nil. cbn [snd].
    rewrite to_influx_run.
    + cbn [snd]. rewrite !final_store. apply put_all_twice.
    + apply calm_nil. by rewrite final_outages, Ho, drop_nil.
  - rewrite (ionq_run df w) by by apply calm_nil. cbn [snd].
    rewrite ionq_run.
    + cbn [snd]. rewrite !final_store. apply put_all_twice.
    + apply calm_nil. by rewrite final_outages, Ho, drop_nil.
Qed.
End Rerun.

Lemma rerun_idempotent_witness :
  store (sink (ImportIonqToInflux.import_csv_to_influxdb Samples.latest_first
                 (ImportIonqToInflux.import_csv_to_influxdb
                    Samples.latest_first Samples.world).2).2)
  = store (sink (ImportIonqToInflux.import_csv_to_influxdb
                   Samples.latest_first Samples.world).2)
  /\ size (store (sink (ImportIonqToInflux.import_csv_to_influxdb
                          Samples.latest_first Samples.world).2)) = 2%nat.
Proof.
  destruct (rerun_idempotent Samples.latest_first Samples.world ∅)
    as (Hsame & _ & _).
  - reflexivity.
  - split; [exact Hsame|]. vm_compute. reflexivity.
Defined.

(** ** The SQLite table *)

Section Table.
Context {R : Runtime}.
Import AnalyzeIonqLocal.

Lemma at_pos_zip_eq i (col : list cell) (vals : list (list cell)) :
  length col = length vals ->
  at_pos i <$> zip_with (put_pos i) col vals = col.
Proof.
  revert vals. induction col as [|c col IH]; intros [|r vals] Hlen;
    cbn in *; try done.
  rewrite at_put_eq, IH; [done|lia].
Qed.

Lemma at_pos_zip_ne i j (col : list cell) (vals : list (list cell)) :
  i ≠ j -> length col = length vals ->
  at_pos j <$> zip_with (put_pos i) col vals = at_pos j <$> vals.
Proof.
  intros Hne. revert vals. induction col as [|c col IH]; intros [|r vals] Hlen;
    cbn in *; try done.
  rewrite at_put_ne, IH; [done|lia|done].
Qed.

(** Assigning a column of the frame's length to an existing column
    changes that column and nothing else. *)
Lemma setitem_spec df k i col :
  get_loc k (columns df) = Some i -> length col = len df ->
  columns (df_setitem df k col) = columns df
  /\ len (df_setitem df k col) = len df
  /\ df_getitem (df_setitem df k col) k = Ok col
  /\ (forall k', k' ≠ k ->
        df_getitem (df_setitem df k col) k' = df_getitem df k').
Proof.
  intros Hi Hlen. unfold df_setitem, df_getitem, len in *. rewrite Hi.
  cbn [columns values]. rewrite Hi. split; [done|]. split; [|split].
  - rewrite length_zip_with. lia.
  - by rewrite at_pos_zip_eq.
  - intros k' Hk. destruct (get_loc k' (columns df)) as [j|] eqn:Hj; [|done].
    rewrite at_pos_zip_ne; [done| |done].
    intros ->. apply Hk. by eapply get_loc_inj.
Qed.

Lemma mapM_length {A B} (f : A -> result B) l l' :
  mapM f l = Ok l' -> length l' = length l.
Proof. intros H%mapM_Forall2. symmetry. by eapply Forall2_length. Qed.

Lemma mapM_all {A B} (f : A -> result B) (P : B -> Prop) l l' :
  mapM f l = Ok l' -> (forall a b, f a = Ok b -> P b) -> Forall P l'.
Proof.
  intros H%mapM_Forall2 Hf. induction H; constructor; eauto.
Qed.

Lemma astype_column_spec cast k df df' (P : cell -> Prop) :
  astype_column cast k df = Ok df' ->
  (forall v c, cast v = Ok c -> P c) ->
  columns df' = columns df
  /\ len df' = len df
  /\ column_all P df' k
  /\ (forall Q k', k' ≠ k -> column_all Q df k' -> column_all Q df' k').
Proof.
  unfold astype_column, df_getitem at 1.
  destruct (get_loc k (columns df)) as [i|] eqn:Hi; [|done].
  cbn [mbind result_bind].
  destruct (mapM cast (at_pos i <$> values df)) as [col|] eqn:Hcol; [|done].
  cbn. intros [= <-] HP.
  pose proof (mapM_length _ _ _ Hcol) as Hlen. rewrite length_fmap in Hlen.
  destruct (setitem_spec df k i col Hi Hlen) as (H1 & H2 & H3 & H4).
  split; [done|]. split; [done|]. split.
  - exists col. split; [done|]. by eapply mapM_all.
  - intros Q k' Hk (c & Hc & HQ). exists c. by rewrite H4.
Qed.

Lemma convert_dates_spec df df' :
  convert_dates df = Ok df' ->
  columns df' = columns df
  /\ len df' = len df
  /\ column_all is_time df' "Date"
  /\ (forall Q k', k' ≠ "Date" -> column_all Q df k' -> column_all Q df' k').
Proof.
  unfold convert_dates, df_getitem at 1.
  destruct (get_loc "Date" (columns df)) as [i|] eqn:Hi; [|done].
  cbn [mbind result_bind].
  destruct (mapM to_datetime (at_pos i <$> values df)) as [ts|] eqn:Hts;
    [|done].
  cbn. intros [= <-].
  pose proof (mapM_length _ _ _ Hts) as Hlen. rewrite length_fmap in Hlen.
  destruct (setitem_spec df "Date" i (VTime <$> ts) Hi) as (H1 & H2 & H3 & H4).
  { by rewrite length_fmap. }
  split; [done|]. split; [done|]. split.
  - exists (VTime <$> ts). split; [done|].
    apply Forall_fmap, Forall_forall. intros t _. by exists t.
  - intros Q k' Hk (c & Hc & HQ). exists c. by rewrite H4.
Qed.

Lemma cast_float_is_float v c : VFloat <$> astype_float v = Ok c -> is_float c.
Proof. destruct (astype_float v) as [x|]; [|done]. intros [= <-]. by exists x. Qed.

Lemma cast_int_is_int v c : VInt <$> astype_int v = Ok c -> is_int c.
Proof. destruct (astype_int v) as [z|]; [|done]. intros [= <-]. by exists z. Qed.

(** What the coercions of lines 18 to 23 leave: the frame's columns and
    rows, with Timestamps for dates, floats for prices and integers for
    volumes. *)
Lemma coerce_spec df df' :
  coerce df = Ok df' ->
  columns df' = columns df
  /\ len df' = len df
  /\ column_all is_time df' "Date"
  /\ column_all is_float df' "Open"
  /\ column_all is_float df' "High"
  /\ column_all is_float df' "Low"
  /\ column_all is_float df' "Close"
  /\ column_all is_int df' "Volume".
Proof.
  unfold coerce. cbn [astype_columns].
  destruct (convert_dates df) as [d0|] eqn:E0; [|done]. cbn [mbind result_bind].
  destruct (astype_column _ "Open" d0) as [d1|] eqn:E1; [|done].
  cbn [mbind result_bind].
  destruct (astype_column _ "High" d1) as [d2|] eqn:E2; [|done].
  cbn [mbind result_bind].
  destruct (astype_column _ "Low" d2) as [d3|] eqn:E3; [|done].
  cbn [mbind result_bind].
  destruct (astype_column _ "Close" d3) as [d4|] eqn:E4; [|done].
  cbn [mbind result_bind mret result_ret].
  intros E5.
  apply convert_dates_spec in E0 as (C0 & L0 & T0 & K0).
  apply (astype_column_spec _ _ _ _ is_float) in E1 as (C1 & L1 & T1 & K1);
    [|apply cast_float_is_float].
  apply (astype_column_spec _ _ _ _ is_float) in E2 as (C2 & L2 & T2 & K2);
    [|apply cast_float_is_float].
  apply (astype_column_spec _ _ _ _ is_float) in E3 as (C3 & L3 & T3 & K3);
    [|apply cast_float_is_float].
  apply (astype_column_spec _ _ _ _ is_float) in E4 as (C4 & L4 & T4 & K4);
    [|apply cast_float_is_float].
  apply (astype_column_spec _ _ _ _ is_int) in E5 as (C5 & L5 & T5 & K5);
    [|apply cast_int_is_int].
  repeat split.
  - congruence.
  - congruence.
  - apply K5, K4, K3, K2, K1; done.
  - apply K5, K4, K3, K2; done.
  - apply K5, K4, K3; done.
  - apply K5, K4; done.
  - apply K5; done.
  - done.
Qed.

(** C8. A run stores the coerced frame as the one table [ionq_prices]:
    the table has the frame's columns and rows (dates as Timestamps,
    prices as floats, volumes as integers), whatever table of that name
    the file held before is gone, and no other table is touched. *)
Theorem table_replaced df df' (db : Database) :
  coerce df = Ok df' ->
  (main df db).1 = Ok tt
  /\ (main df db).2 !! "ionq_prices" = Some df'
  /\ (forall name, name ≠ "ionq_prices" -> (main df db).2 !! name = db !! name)
  /\ columns df' = columns df
  /\ len df' = len df
  /\ column_all is_time df' "Date"
  /\ column_all is_float df' "Open"
  /\ column_all is_float df' "High"
  /\ column_all is_float df' "Low"
  /\ column_all is_float df' "Close"
  /\ column_all is_int df' "Volume".
Proof.
  intros Hco. split; [|split; [|split; [|by apply coerce_spec]]].
  - unfold main, to_sql. rewrite Hco. by destruct (db !! "ionq_prices").
  - unfold main, to_sql, Database in *. rewrite Hco.
    destruct (db !! "ionq_prices"); cbn [snd]; apply lookup_insert_eq.
  - intros name Hne. unfold main, to_sql, Database in *. rewrite Hco.
    destruct (db !! "ionq_prices"); cbn [snd]; by apply lookup_insert_ne.
Qed.

End Table.

Lemma table_replaced_witness :
  (AnalyzeIonqLocal.main Samples.one_row Samples.old_database).1 = Ok tt
  /\ (columns <$> (AnalyzeIonqLocal.main Samples.one_row Samples.old_database).2
                  !! "ionq_prices")
     = Some Samples.header
  /\ (AnalyzeIonqLocal.main Samples.one_row Samples.old_database).2 !! "notes"
     = Samples.old_database !! "notes".
Proof.
  destruct (table_replaced Samples.one_row
              (default Samples.one_row
                 (match AnalyzeIonqLocal.coerce Samples.one_row with
                  | Ok df' => Some df' | Raise _ => None end))
              Samples.old_database)
    as (Hr & Ht & Hother & Hcols & _).
  - vm_compute. reflexivity.
  - split; [exact Hr|]. split.
    + rewrite Ht. cbn [fmap option_fmap option_map]. rewrite Hcols. reflexivity.
    + apply Hother. discriminate.
Defined.

(** * Further properties of the scripts *)

(** ** Requests and progress lines *)

Section Progress.
Context {R : Runtime}.

(** X1. For a file of any length, [import_ionq_to_influx.py] makes one
    write call for each full thousand of rows and one more for the
    remainder, if there is one: a file of a multiple of 1000 rows ends
    with a full batch, and an empty file makes no call. *)
Theorem request_sizes_any_length df w ps :
  points_of df = (ps, None) ->
  outages (sink w) = [] ->
  exists w',
    ImportIonqToInflux.import_csv_to_influxdb df w = (Ok tt, w')
    /\ request_sizes w w'
       = replicate (len df / 1000) 1000%nat
         ++ (if (len df mod 1000 =? 0)%nat then [] else [(len df mod 1000)%nat])
    /\ attempts (sink w')
       = (attempts (sink w) + len df / 1000
          + (if (len df mod 1000 =? 0)%nat then 0 else 1))%nat.
Proof.
  intros Hps Ho.
  pose proof (points_of_all _ _ Hps) as Hn.
  destruct (to_influx_dry_run _ _ _ Hps) as [He Hs].
  pose proof (batches_sizes ps) as Hsz. rewrite Hn in Hsz.
  rewrite to_influx_run, He by by apply calm_nil.
  eexists. split; [done|]. split.
  - rewrite final_sizes, Hs, <- list_fmap_compose. exact Hsz.
  - rewrite final_attempts, Hs, length_fmap.
    rewrite <- (length_fmap length), Hsz, length_app, length_replicate.
    destruct (len df mod 1000 =? 0)%nat; cbn [length]; lia.
Qed.

Lemma progress_marks_from step index n :
  List.filter (fun m => (m mod step =? 0)%nat) (seq (S index) (S n))
  = (if (S index mod step =? 0)%nat then [S index] else [])
    ++ List.filter (fun m => (m mod step =? 0)%nat) (seq (S (S index)) n).
Proof. cbn [seq List.filter]. by destruct (S index mod step =? 0)%nat. Qed.

Lemma to_influx_loop_says index points ps :
  length points = (index mod 1000)%nat ->
  says (ImportIonqToInflux.loop_trace index points ps).1
  = MsgImported
      <$> List.filter (fun m => (m mod 1000 =? 0)%nat)
            (seq (S index) (length ps)).
Proof.
  revert index points. induction ps as [|p ps IH]; intros index points Hlen.
  - done.
  - cbn [ImportIonqToInflux.loop_trace length].
    rewrite progress_marks_from.
    assert (index mod 1000 < 1000)%nat as Hlt by (apply Nat.mod_upper_bound; lia).
    assert (S index mod 1000
            = if (index mod 1000 =? 999)%nat then 0 else S (index mod 1000))%nat
      as Hmod.
    { destruct (Nat.eqb_spec (index mod 1000) 999) as [E|E].
      - rewrite (Nat.div_mod index 1000) at 1 by lia. rewrite E.
        replace (S (1000 * (index / 1000) + 999))
          with (0 + (index / 1000 + 1) * 1000)%nat by lia.
        by rewrite Nat.Div0.mod_add.
      - rewrite (Nat.div_mod index 1000) at 1 by lia.
        replace (S (1000 * (index / 1000) + index mod 1000))
          with (S (index mod 1000) + (index / 1000) * 1000)%nat by lia.
        rewrite Nat.Div0.mod_add. apply Nat.mod_small. lia. }
    rewrite length_app, Hlen. cbn [length]. rewrite Hmod.
    destruct (Nat.eqb_spec (index mod 1000) 999) as [E|E].
    + rewrite E. cbn [Nat.add Nat.leb Nat.eqb].
      replace (1000 <=? 999 + 1)%nat with true by done.
      specialize (IH (S index) []). rewrite Hmod in IH.
      destruct (Nat.eqb_spec (index mod 1000) 999); [|done].
      specialize (IH eq_refl).
      destruct (ImportIonqToInflux.loop_trace (S index) [] ps) as [acts buf].
      cbn [fst snd] in *. unfold says in *. cbn [omap list_omap].
      rewrite IH. cbn [fmap list_fmap app]. by rewrite Nat.add_1_r.
    + destruct (Nat.leb_spec 1000 (index mod 1000 + 1)) as [Hge|_]; [lia|].
      cbn [Nat.eqb app]. apply IH. rewrite length_app, Hlen. cbn [length].
      rewrite Hmod. destruct (Nat.eqb_spec (index mod 1000) 999); [done|lia].
Qed.

(** X2. The lines [import_ionq_to_influx.py] prints: the file name, the
    number of rows found, then [Imported m records...] for every multiple
    [m] of 1000 up to the number of rows (a file of fewer than 1000 rows
    prints none), the success line, and the result of the read-back. *)
Theorem to_influx_prints df w ps :
  points_of df = (ps, None) ->
  outages (sink w) = [] ->
  exists w',
    ImportIonqToInflux.import_csv_to_influxdb df w = (Ok tt, w')
    /\ stdout w'
       = stdout w
         ++ [MsgReading ImportIonqToInflux.CSV_FILE; MsgFound (len df)]
         ++ (MsgImported <$> progress_marks 1000 (len df))
         ++ [MsgSuccess (len df)]
         ++ (echo <$> query_last_close ImportIonqToInflux.INFLUX_BUCKET
                        (sink w')).
Proof.
  intros Hps Ho.
  destruct (to_influx_success _ _ _ Hps Ho) as (w' & Hrun & _ & Hout & _).
  exists w'. split; [done|]. rewrite Hout. f_equal.
  assert (says (ImportIonqToInflux.dry_run df).1
          = [MsgReading ImportIonqToInflux.CSV_FILE; MsgFound (len df)]
            ++ (MsgImported <$> progress_marks 1000 (len df))
            ++ [MsgSuccess (len df)]) as ->;
    [|by rewrite <- !app_assoc].
  unfold ImportIonqToInflux.dry_run, points_of in *.
  destruct (convert_dates df) as [df'|] eqn:Hdf; [|done].
  rewrite Hps. pose proof (to_influx_loop_says 0 [] ps eq_refl) as Hsays.
  destruct (ImportIonqToInflux.loop_trace 0 [] ps) as [acts buf].
  cbn [fst snd] in *. rewrite (convert_dates_len _ _ Hdf).
  apply convert_rows_all in Hps. unfold rows in Hps.
  rewrite length_fmap in Hps. fold (len df') in Hps.
  rewrite (convert_dates_len _ _ Hdf) in Hps. rewrite Hps in Hsays.
  rewrite !says_app, Hsays. cbn [says omap list_omap app].
  f_equal. f_equal. f_equal.
  unfold ImportIonqToInflux.flush_trace. by case_bool_decide.
Qed.

Lemma ionq_loop_says count ps :
  says (ImportIonq.loop_trace count ps)
  = MsgImported
      <$> List.filter (fun m => (m mod 100 =? 0)%nat)
            (seq (S count) (length ps)).
Proof.
  revert count. induction ps as [|p ps IH]; intros count; [done|].
  cbn [ImportIonq.loop_trace length]. rewrite progress_marks_from.
  unfold says in *. cbn [omap list_omap]. rewrite omap_app, IH.
  rewrite fmap_app, Nat.add_1_r. f_equal.
  by destruct (S count mod 100 =? 0)%nat.
Qed.

(** X3. [import_ionq.py] makes one write call for every row, each with
    that row's single point, and prints [Imported m records...] for
    every multiple [m] of 100 up to the number of rows. *)
Theorem ionq_requests_and_prints df w ps :
  points_of df = (ps, None) ->
  outages (sink w) = [] ->
  exists w',
    ImportIonq.main df w = (Ok tt, w')
    /\ calls (sink w')
       = calls (sink w) ++ ((fun p => (ImportIonq.BUCKET, [p])) <$> ps)
    /\ attempts (sink w') = (attempts (sink w) + len df)%nat
    /\ stdout w'
       = stdout w
         ++ [MsgLoading (len df)]
         ++ (MsgImported <$> progress_marks 100 (len df))
         ++ [MsgSuccess (len df)]
         ++ (echo <$> query_last_close ImportIonq.BUCKET (sink w')).
Proof.
  intros Hps Ho.
  pose proof (points_of_all _ _ Hps) as Hn.
  destruct (ionq_dry_run _ _ _ Hps) as [He Hs].
  rewrite ionq_run, He by by apply calm_nil.
  eexists. split; [done|]. split; [|split].
  - by rewrite final_calls, Hs.
  - by rewrite final_attempts, Hs, length_fmap, Hn.
  - cbn [final_world after_read_back stdout sink].
    rewrite effect_stdout, <- !app_assoc. f_equal.
    assert (says (ImportIonq.dry_run df).1
            = [MsgLoading (len df)]
              ++ (MsgImported <$> progress_marks 100 (len df))
              ++ [MsgSuccess (len df)]) as ->;
      [|by rewrite <- !app_assoc].
    unfold ImportIonq.dry_run, points_of in *.
    destruct (convert_dates df) as [df'|] eqn:Hdf; [|done].
    rewrite Hps. cbn [fst snd]. rewrite (convert_dates_len _ _ Hdf).
    rewrite (says_app (_ :: _)).
    change (says (Say (MsgLoading (len df)) :: ImportIonq.loop_trace 0 ps))
      with (MsgLoading (len df) :: says (ImportIonq.loop_trace 0 ps)).
    rewrite ionq_loop_says, Hn. done.
Qed.
End Progress.

(** ** Runs that write nothing *)

Section Outcomes.
Context {R : Runtime}.

Lemma mapM_Exists_fail {A B} (f : A -> result B) l :
  Exists (fun a => is_ok (f a) = false) l -> exists e, mapM f l = Raise e.
Proof.
  induction 1 as [a l Ha|a l _ [e IH]]; cbn.
  - destruct (f a) as [b|e]; [done|]. by exists e.
  - destruct (f a) as [b|e']; [|by exists e']. cbn. rewrite IH. by exists e.
Qed.

(** X5. A date that does not parse, in any row of the file, stops both
    import scripts before the first write: the whole Date column is
    converted before the loop starts, so the bucket is left as it was
    (unlike a bad number, which leaves the earlier rows written). *)
Theorem bad_date_writes_nothing df col w :
  df_getitem df "Date" = Ok col ->
  Exists (fun c => is_ok (to_datetime c) = false) col ->
  exists e,
    ImportIonqToInflux.import_csv_to_influxdb df w
    = (Raise e,
       {| sink := sink w;
          stdout := stdout w ++ [MsgReading ImportIonqToInflux.CSV_FILE] |})
    /\ ImportIonq.main df w = (Raise e, w).
Proof.
  intros Hcol [e He]%mapM_Exists_fail. exists e.
  assert (convert_dates df = Raise e) as Hdf.
  { unfold convert_dates. rewrite Hcol. cbn. by rewrite He. }
  split.
  - rewrite to_influx_run; unfold ImportIonqToInflux.dry_run; rewrite Hdf;
      [done|constructor].
  - rewrite ionq_run; unfold ImportIonq.dry_run; rewrite Hdf;
      [done|constructor].
Qed.

(** X7. A file with a Date column and no data row makes neither import
    script send a write request: the only request of the run is the
    query of the verification block. When the server answers it, both
    scripts report zero records, print what the query returned and end
    normally; when it does not, the run ends with the exception of the
    client, after the success line. The server has received one query
    and no write in both cases. *)
Theorem empty_file_sends_nothing df w :
  values df = [] ->
  "Date" ∈ columns df ->
  (head (outages (sink w)) ≠ Some true ->
   ImportIonqToInflux.import_csv_to_influxdb df w
   = (Ok tt,
      {| sink := asked (sink w);
         stdout := stdout w
                   ++ [MsgReading ImportIonqToInflux.CSV_FILE; MsgFound 0;
                       MsgSuccess 0]
                   ++ (echo <$> query_last_close
                                  ImportIonqToInflux.INFLUX_BUCKET (sink w)) |})
   /\ ImportIonq.main df w
      = (Ok tt,
         {| sink := asked (sink w);
            stdout := stdout w ++ [MsgLoading 0; MsgSuccess 0]
                      ++ (echo <$> query_last_close ImportIonq.BUCKET
                                     (sink w)) |}))
  /\ (head (outages (sink w)) = Some true ->
      ImportIonqToInflux.import_csv_to_influxdb df w
      = (Raise ApiException,
         {| sink := asked (sink w);
            stdout := stdout w
                      ++ [MsgReading ImportIonqToInflux.CSV_FILE; MsgFound 0;
                          MsgSuccess 0] |})
      /\ ImportIonq.main df w
         = (Raise ApiException,
            {| sink := asked (sink w);
               stdout := stdout w ++ [MsgLoading 0; MsgSuccess 0] |})).
Proof.
  intros Hrows Hdate.
  destruct (empty_dry_runs df Hrows Hdate) as [Hto Hio].
  rewrite run_trace, main_trace, Hto, Hio. cbn [fst snd finish].
  repeat first [ rewrite bind_at
               | progress cbn [perform print mret M_ret sink stdout] ].
  split; intros Ho.
  - rewrite !read_back_prints by done. unfold after_read_back.
    cbn [sink stdout]. by rewrite <- !app_assoc.
  - rewrite !read_back_refused by done. cbn [sink stdout].
    by rewrite <- !app_assoc.
Qed.
End Outcomes.

(** ** What ends up in the bucket *)

Section Stored.
Context {R : Runtime}.

Lemma bucket_points_fmap b (bs : list (list Point)) :
  bucket_points ((fun r => (b, r)) <$> bs) = (fun p => (b, p)) <$> concat bs.
Proof.
  unfold bucket_points. induction bs as [|r bs IH]; [done|].
  cbn [fmap list_fmap mbind list_bind concat fst snd] in *.
  by rewrite IH, fmap_app.
Qed.

Lemma bucket_points_singletons b (ps : list Point) :
  bucket_points ((fun p => (b, [p])) <$> ps) = (fun p => (b, p)) <$> ps.
Proof.
  unfold bucket_points. induction ps as [|p ps IH]; [done|].
  cbn [fmap list_fmap mbind list_bind fst snd app] in *. by rewrite IH.
Qed.

(** X8. Batching does not change what is stored: after a run of
    [import_ionq_to_influx.py] the bucket holds what putting the points
    one by one, in the order of the rows, would have left, and so it does
    after a run of [import_ionq.py] (in its own bucket). *)
Theorem batching_is_transparent df w ps :
  points_of df = (ps, None) ->
  outages (sink w) = [] ->
  store (sink (ImportIonqToInflux.import_csv_to_influxdb df w).2)
  = foldl put_bucket_point (store (sink w))
      ((fun p => (ImportIonqToInflux.INFLUX_BUCKET, p)) <$> ps)
  /\ store (sink (ImportIonq.main df w).2)
     = foldl put_bucket_point (store (sink w))
         ((fun p => (ImportIonq.BUCKET, p)) <$> ps).
Proof.
  intros Hps Ho. split.
  - destruct (to_influx_dry_run _ _ _ Hps) as [_ Hs].
    rewrite to_influx_run by by apply calm_nil. cbn [snd].
    rewrite final_store, Hs, put_all_flat, bucket_points_fmap.
    by rewrite batches_concat.
  - destruct (ionq_dry_run _ _ _ Hps) as [_ Hs].
    rewrite ionq_run by by apply calm_nil. cbn [snd].
    by rewrite final_store, Hs, put_all_flat, bucket_points_singletons.
Qed.

Lemma put_point_other b st t p (k : key) :
  (b, p_name p) ≠ (k.1.1, k.1.2) -> put_point b st (t, p) !! k = st !! k.
Proof.
  intros Hne. unfold put_point. cbn [fst snd].
  destruct (List.filter storable (p_fields p)); [done|].
  unfold key in *. apply lookup_insert_ne.
  destruct k as [[kb km] kt]. cbn in Hne. congruence.
Qed.

Lemma foldl_put_other b st (l : list (Z * Point)) (k : key) :
  Forall (fun tp => (b, p_name tp.2) ≠ (k.1.1, k.1.2)) l ->
  foldl (put_point b) st l !! k = st !! k.
Proof.
  revert st. induction l as [|[t p] l IH]; intros st Hl; [done|].
  inversion Hl; subst. cbn [foldl]. rewrite IH by done.
  by apply put_point_other.
Qed.

Lemma write_store_other b r s (k : key) :
  Forall (fun p => (b, p_name p) ≠ (k.1.1, k.1.2)) r ->
  store (write b r s).2 !! k = store s !! k.
Proof.
  intros Hr. unfold write.
  destruct (mapM (timestamp_of s) r) as [ts|]; [|done].
  destruct (outages s) as [|[] later]; cbn [snd store]; try done;
    apply foldl_put_other;
    (apply Forall_forall; intros [t p] Hin%elem_of_zip_r; cbn;
     by eapply (proj1 (Forall_forall _ _) Hr)).
Qed.

(** Whatever the server does with the requests, performing them changes
    no point outside the buckets and measurements they name. *)
Lemma perform_store_other acts w (k : key) :
  Forall (fun br => Forall (fun p => (br.1, p_name p) ≠ (k.1.1, k.1.2)) br.2)
    (sends acts) ->
  store (sink (perform acts w).2) !! k = store (sink w) !! k.
Proof.
  revert w. induction acts as [|[b r|m] acts IH]; intros w Hs; [done| |].
  - rewrite sends_cons_send in Hs. inversion Hs as [|? ? Hr Hs']; subst.
    cbn [perform]. rewrite bind_at.
    pose proof (write_store_other b r (sink w) k Hr) as Hw.
    unfold write_api_write.
    destruct (write b r (sink w)) as [[[]|e] s]; cbn [snd] in *.
    + rewrite IH by done. done.
    + done.
  - cbn [perform]. rewrite bind_at. cbn [print]. by rewrite IH.
Qed.

Lemma finish_store (m : M unit) e bucket w :
  store (sink ((m;; finish e (read_back bucket)) w).2) = store (sink (m w).2).
Proof.
  rewrite bind_at. destruct (m w) as [[[]|e'] w']; [|done].
  destruct e; cbn [finish lift snd]; [done|].
  destruct (decide (head (outages (sink w')) = Some true)) as [Ho|Ho].
  - by rewrite read_back_refused.
  - by rewrite read_back_prints.
Qed.

Lemma points_named df ps e :
  points_of df = (ps, e) -> Forall (fun p => p_name p = "ionq_stock") ps.
Proof.
  intros H%points_of_rows.
  induction H as [|row p l ps' Hp _ IH]; constructor; [|done].
  destruct Hp as (d & t & o & h & lo & c & v & Hp). by destruct_and!; subst.
Qed.

Lemma Forall_concat_named (bs : list (list Point)) b (k : key) :
  (b, "ionq_stock") ≠ (k.1.1, k.1.2) ->
  Forall (fun p => p_name p = "ionq_stock") (concat bs) ->
  Forall (fun br : string * list Point =>
            Forall (fun p => (br.1, p_name p) ≠ (k.1.1, k.1.2)) br.2)
    ((fun r => (b, r)) <$> bs).
Proof.
  intros Hne. induction bs as [|r bs IH]; cbn; [constructor|].
  intros [Hr Hbs]%Forall_app. constructor; [|by apply IH].
  cbn. eapply Forall_impl; [exact Hr|]. intros p ->. done.
Qed.

(** X9. A run touches nothing but the points of measurement [ionq_stock]
    in its own bucket ([stock_data] for [import_ionq_to_influx.py],
    [stocks] for [import_ionq.py]): every other point of the server is
    after the run what it was before, however the run ends and whatever
    the server does with the requests. The two scripts never write to the
    same place. *)
Theorem only_own_measurement_touched df w b m t :
  ((b, m) ≠ (ImportIonqToInflux.INFLUX_BUCKET, "ionq_stock") ->
   store (sink (ImportIonqToInflux.import_csv_to_influxdb df w).2) !! (b, m, t)
   = store (sink w) !! (b, m, t))
  /\ ((b, m) ≠ (ImportIonq.BUCKET, "ionq_stock") ->
      store (sink (ImportIonq.main df w).2) !! (b, m, t)
      = store (sink w) !! (b, m, t)).
Proof.
  destruct (points_of df) as [ps e] eqn:Hps.
  pose proof (points_named _ _ _ Hps) as Hnamed.
  split; intros Hne.
  - destruct (to_influx_dry_run _ _ _ Hps) as [_ Hs].
    rewrite run_trace, finish_store. apply perform_store_other. rewrite Hs.
    apply Forall_concat_named; [cbn; congruence|].
    destruct e.
    + pose proof (loop_trace_concat 0 [] ps) as E. cbn [app] in E.
      rewrite <- E in Hnamed. by apply Forall_app in Hnamed as [H _].
    + by rewrite batches_concat.
  - destruct (ionq_dry_run _ _ _ Hps) as [_ Hs].
    rewrite main_trace, finish_store. apply perform_store_other. rewrite Hs.
    apply Forall_fmap. eapply Forall_impl; [exact Hnamed|].
    intros p Hp. cbn. constructor; [|constructor]. rewrite Hp. congruence.
Qed.
End Stored.

(** ** The SQLite script *)

Section TableMore.
Context {R : Runtime}.
Import AnalyzeIonqLocal.

Lemma astype_column_other cast k df df' k' :
  astype_column cast k df = Ok df' -> k' ≠ k ->
  df_getitem df' k' = df_getitem df k'.
Proof.
  unfold astype_column, df_getitem at 1.
  destruct (get_loc k (columns df)) as [i|] eqn:Hi; [|done].
  cbn [mbind result_bind].
  destruct (mapM cast (at_pos i <$> values df)) as [col|] eqn:Hcol; [|done].
  cbn. intros [= <-] Hne.
  pose proof (mapM_length _ _ _ Hcol) as Hlen. rewrite length_fmap in Hlen.
  destruct (setitem_spec df k i col Hi Hlen) as (_ & _ & _ & H4). by apply H4.
Qed.

Lemma convert_dates_other df df' k' :
  convert_dates df = Ok df' -> k' ≠ "Date" ->
  df_getitem df' k' = df_getitem df k'.
Proof.
  unfold convert_dates, df_getitem at 1.
  destruct (get_loc "Date" (columns df)) as [i|] eqn:Hi; [|done].
  cbn [mbind result_bind].
  destruct (mapM to_datetime (at_pos i <$> values df)) as [ts|] eqn:Hts;
    [|done].
  cbn. intros [= <-] Hne.
  pose proof (mapM_length _ _ _ Hts) as Hlen. rewrite length_fmap in Hlen.
  destruct (setitem_spec df "Date" i (VTime <$> ts) Hi) as (_ & _ & _ & H4).
  { by rewrite length_fmap. }
  by apply H4.
Qed.

(** X10. [analyze_ionq_local.py] stores the columns it does not name as
    they were read: a column of the file other than Date, Open, High,
    Low, Close and Volume reaches the table cell for cell. *)
Theorem analyze_keeps_other_columns df df' k :
  coerce df = Ok df' ->
  k ∉ required_columns ->
  df_getitem df' k = df_getitem df k.
Proof.
  unfold coerce. cbn [astype_columns]. intros Hco Hk.
  unfold required_columns in Hk. rewrite !not_elem_of_cons in Hk.
  destruct Hk as (Hd & Ho & Hh & Hl & Hc & Hv & _).
  destruct (convert_dates df) as [d0|] eqn:E0; [|done].
  cbn [mbind result_bind] in Hco.
  destruct (astype_column _ "Open" d0) as [d1|] eqn:E1; [|done].
  cbn [mbind result_bind] in Hco.
  destruct (astype_column _ "High" d1) as [d2|] eqn:E2; [|done].
  cbn [mbind result_bind] in Hco.
  destruct (astype_column _ "Low" d2) as [d3|] eqn:E3; [|done].
  cbn [mbind result_bind] in Hco.
  destruct (astype_column _ "Close" d3) as [d4|] eqn:E4; [|done].
  cbn [mbind result_bind mret result_ret] in Hco.
  rewrite (astype_column_other _ _ _ _ _ Hco Hv).
  rewrite (astype_column_other _ _ _ _ _ E4 Hc).
  rewrite (astype_column_other _ _ _ _ _ E3 Hl).
  rewrite (astype_column_other _ _ _ _ _ E2 Hh).
  rewrite (astype_column_other _ _ _ _ _ E1 Ho).
  by apply convert_dates_other.
Qed.

End TableMore.

(** ** prepare_data.py *)

Section JsonExport.
Context {R : Runtime} {D : PrepareData.Describe}.
Import PrepareData.

Lemma get_loc_bound key cols i :
  get_loc key cols = Some i -> (i < length cols)%nat.
Proof.
  revert i. induction cols as [|c cols IH]; intros i; cbn; [done|].
  destruct (String.eqb c key); [intros [= <-]; lia|].
  destruct (get_loc key cols) as [j|]; [|done].
  intros [= <-]. specialize (IH j eq_refl). lia.
Qed.

Lemma pbind_at {A B} (m : P A) (f : A -> P B) d :
  (m ≫= f) d = match m d with
               | (Ok a, d') => f a d'
               | (Raise e, d') => (Raise e, d')
               end.
Proof. done. Qed.

Ltac pstep := rewrite pbind_at; cbn [PrepareData.print compute].

(** The run fails as its preparation fails and else as the dump ends; the
    output file is opened only after the preparation, and no other file
    is touched. *)
Lemma main_spec df d :
  (main df d).1
  = (data ← prepare df; if dumpable data then Ok tt else Raise TypeError)
  /\ files (main df d).2
     = match prepare df with
       | Ok data => <[output_file := dumped data]> (files d)
       | Raise _ => files d
       end.
Proof.
  unfold main, prepare.
  pstep.
  destruct (df_getitem df "Date" ≫= series_min) as [lo|]; pstep; [|done].
  destruct (df_getitem df "Date" ≫= series_max) as [hi|]; pstep; [|done].
  do 4 pstep.
  destruct (df_getitem df "Close" ≫= mapM astype_float) as [cl|];
    pstep; [|done].
  do 5 pstep.
  destruct (df_getitem df "Volume" ≫= mapM astype_int) as [vo|];
    pstep; [|done].
  pstep.
  destruct (json_rows df) as [data|]; pstep; [|done].
  cbn [mbind result_bind]. unfold json_dump, dumped, dumpable.
  destruct (forallb _ data); cbn; done.
Qed.

Lemma json_row_numeric_failure dtype row :
  numeric_failure row -> is_ok (json_row dtype row) = false.
Proof.
  intros Hf. pose proof (numeric_failure_raises row Hf) as Hb.
  unfold build_point in Hb. unfold json_row.
  destruct (row_getitem row "Date") as [d|]; [|done].
  cbn [mbind result_bind] in *.
  destruct (row_getitem row "Open" ≫= py_float) as [o|]; [|done].
  destruct (row_getitem row "High" ≫= py_float) as [h|]; [|done].
  destruct (row_getitem row "Low" ≫= py_float) as [l|]; [|done].
  destruct (row_getitem row "Close" ≫= py_float) as [c|]; [|done].
  destruct (row_getitem row "Volume" ≫= py_int) as [v|]; done.
Qed.

Lemma prepare_fails_with_rows df :
  is_ok (json_rows df) = false -> is_ok (prepare df) = false.
Proof.
  unfold prepare. intros H.
  destruct (df_getitem df "Date" ≫= series_min); [|done].
  destruct (df_getitem df "Date" ≫= series_max); [|done].
  destruct (df_getitem df "Close" ≫= mapM astype_float); [|done].
  destruct (df_getitem df "Volume" ≫= mapM astype_int); done.
Qed.

Lemma failed_preparation df d :
  is_ok (prepare df) = false ->
  is_ok (main df d).1 = false /\ files (main df d).2 = files d.
Proof.
  intros H. destruct (main_spec df d) as [-> ->].
  by destruct (prepare df).
Qed.

(** X12. [prepare_data.py] writes its JSON file in one piece after the
    loop: when a number of any row does not convert, the run fails, no
    file is written, and the file of an earlier export is left as it
    was. The rows before the bad one are not exported (where the import
    scripts leave them written). *)
Theorem export_is_all_or_nothing df d :
  Exists numeric_failure (iterrows df).*2 ->
  is_ok (main df d).1 = false /\ files (main df d).2 = files d.
Proof.
  intros Hbad. apply failed_preparation, prepare_fails_with_rows.
  unfold json_rows.
  destruct (mapM_Exists_fail (json_row (rows_dtype df)) (iterrows df).*2)
    as [e ->]; [|done].
  eapply Exists_impl; [exact Hbad|]. apply json_row_numeric_failure.
Qed.

Lemma json_row_timestamp dtype row rec :
  json_row dtype row = Ok rec ->
  exists c, row_getitem row "Date" = Ok c
            /\ exists tl, rec = ("timestamp", as_object dtype c) :: tl.
Proof.
  unfold json_row.
  destruct (row_getitem row "Date") as [d|]; [|done].
  cbn [mbind result_bind].
  destruct (row_getitem row "Open" ≫= py_float) as [o|]; [|done].
  destruct (row_getitem row "High" ≫= py_float) as [h|]; [|done].
  destruct (row_getitem row "Low" ≫= py_float) as [l|]; [|done].
  destruct (row_getitem row "Close" ≫= py_float) as [c|]; [|done].
  destruct (row_getitem row "Volume" ≫= py_int) as [v|]; [|done].
  cbn. intros [= <-]. exists d. split; [done|]. by eexists.
Qed.

Lemma json_row_keys dtype row rec :
  json_row dtype row = Ok rec ->
  rec.*1 = ["timestamp"; "open"; "high"; "low"; "close"; "volume"].
Proof.
  unfold json_row.
  destruct (row_getitem row "Date") as [d|]; [|done].
  cbn [mbind result_bind].
  destruct (row_getitem row "Open" ≫= py_float) as [o|]; [|done].
  destruct (row_getitem row "High" ≫= py_float) as [h|]; [|done].
  destruct (row_getitem row "Low" ≫= py_float) as [l|]; [|done].
  destruct (row_getitem row "Close" ≫= py_float) as [c|]; [|done].
  destruct (row_getitem row "Volume" ≫= py_int) as [v|]; [|done].
  cbn. by intros [= <-].
Qed.

Lemma enumerate_snd {A} start (l : list A) : (enumerate start l).*2 = l.
Proof.
  revert start. induction l as [|a l IH]; intros start; [done|].
  cbn. by rewrite IH.
Qed.

Lemma iterrows_length df : length (iterrows df).*2 = len df.
Proof.
  unfold iterrows. rewrite enumerate_snd.
  destruct (rows_dtype df); unfold rows; by rewrite length_fmap.
Qed.

(** X13. When [prepare_data.py] ends normally, the output file holds one
    record for every row of the input, in order, each with exactly the
    keys timestamp, open, high, low, close, volume; whatever the file
    held before is replaced, and no other file is touched. *)
Theorem export_holds_every_row df d :
  (main df d).1 = Ok tt ->
  exists data,
    files (main df d).2 = <[output_file := Complete data]> (files d)
    /\ length data = len df
    /\ Forall (fun rec => rec.*1 = ["timestamp"; "open"; "high"; "low";
                                     "close"; "volume"]) data.
Proof.
  intros Hok. destruct (main_spec df d) as [Hr Hf]. rewrite Hr in Hok.
  destruct (prepare df) as [data|] eqn:Hprep; [|done].
  cbn in Hok. exists data. unfold dumped in Hf.
  destruct (dumpable data); [|done]. split; [done|].
  assert (json_rows df = Ok data) as Hrows.
  { unfold prepare in Hprep.
    destruct (df_getitem df "Date" ≫= series_min); [|done].
    destruct (df_getitem df "Date" ≫= series_max); [|done].
    destruct (df_getitem df "Close" ≫= mapM astype_float); [|done].
    destruct (df_getitem df "Volume" ≫= mapM astype_int); done. }
  unfold json_rows in Hrows. split.
  - rewrite (mapM_length _ _ _ Hrows). apply iterrows_length.
  - eapply mapM_all; [exact Hrows|]. intros row rec. apply json_row_keys.
Qed.

Lemma point_of_row_json row p :
  point_of_row row p ->
  exists d,
    row_getitem row "Date" = Ok d
    /\ json_row Object row
       = Ok (("timestamp", as_object Object d)
             :: ((fun kv => (kv.1, as_json kv.2)) <$> p_fields p)).
Proof.
  intros (d & t & o & h & l & c & v & Hd & _ & Ho & Hh & Hl & Hc & Hv & ->).
  exists d. split; [done|]. unfold json_row.
  rewrite Hd. cbn [mbind result_bind]. by rewrite Ho, Hh, Hl, Hc, Hv.
Qed.

Lemma text_date_object df col :
  df_getitem df "Date" = Ok col -> Forall is_text col ->
  (iterrows df).*2 = rows df
  /\ (values df ≠ [] -> rows_dtype df = Object).
Proof.
  intros Hcol Htext. unfold df_getitem in Hcol.
  destruct (get_loc "Date" (columns df)) as [i|] eqn:Hi; [|done].
  injection Hcol as <-.
  assert (values df ≠ [] -> rows_dtype df = Object) as Hobj.
  { destruct (values df) as [|r l] eqn:Hv; [done|]. intros _.
    inversion Htext as [|? ? [s Hs] _]; subst.
    assert (forallb is_num_cell r = false) as Hnum.
    { apply not_true_is_false. rewrite forallb_forall. intros Hall.
      unfold at_pos in Hs. destruct (r !! i) as [c|] eqn:Hc; [|done].
      cbn in Hs. subst c.
      apply list_elem_of_lookup_2, list_elem_of_In, Hall in Hc. done. }
    assert (forallb is_int_cell r = false) as Hint.
    { apply not_true_is_false. rewrite forallb_forall. intros Hall.
      apply not_true_iff_false in Hnum. apply Hnum.
      rewrite forallb_forall. intros c Hc. specialize (Hall c Hc).
      by destruct c. }
    unfold rows_dtype. rewrite Hv. cbn [forallb]. by rewrite Hint, Hnum. }
  split; [|done].
  unfold iterrows. rewrite enumerate_snd.
  destruct (values df) as [|r l] eqn:Hv.
  - unfold rows. rewrite Hv. by destruct (rows_dtype _).
  - by rewrite Hobj.
Qed.

(** X14. The export and the import agree. For a file with a text Date
    column that the import scripts convert completely, the records of
    [prepare_data.py] carry, row by row, the same open, high, low, close
    and volume as the points written to InfluxDB, and the date as the
    text that was read. *)
Theorem export_agrees_with_import df col ps :
  df_getitem df "Date" = Ok col ->
  Forall is_text col ->
  points_of df = (ps, None) ->
  exists data,
    json_rows df = Ok data
    /\ Forall2 (fun rec p =>
                  drop 1 rec = (fun kv => (kv.1, as_json kv.2)) <$> p_fields p)
         data ps
    /\ head <$> data
       = (fun c => Some ("timestamp", as_object Object c)) <$> col.
Proof.
  intros Hcol Htext Hps.
  destruct (text_date_object df col Hcol Htext) as [Hit Hobj].
  pose proof (points_of_every_row _ _ Hps) as Hrows.
  unfold json_rows. rewrite Hit.
  unfold df_getitem in Hcol.
  destruct (get_loc "Date" (columns df)) as [i|] eqn:Hi; [|done].
  injection Hcol as <-. unfold rows in *.
  destruct (values df) as [|r0 l0] eqn:Hv.
  { inversion Hrows; subst. by exists []. }
  rewrite Hobj by done. clear Hobj Hit Htext Hps.
  generalize dependent (r0 :: l0). clear r0 l0. intros vals _ Hrows.
  revert ps Hrows. induction vals as [|r l IH]; intros ps Hrows.
  - inversion Hrows; subst. by exists [].
  - inversion Hrows as [|? p ? ps' Hp Hrest]; subst.
    destruct (IH _ Hrest) as (data & Hdata & Hnum & Hts).
    destruct (point_of_row_json _ _ Hp) as (d & Hd & Hrec).
    eexists. cbn [fmap list_fmap mapM]. rewrite Hrec. cbn [mbind result_bind].
    rewrite Hdata. cbn [mbind result_bind mret result_ret]. split; [done|].
    split.
    + constructor; [done|exact Hnum].
    + cbn [fmap list_fmap head]. rewrite Hts. f_equal.
      unfold row_getitem in Hd. cbn [s_index s_data] in Hd.
      rewrite Hi in Hd. by injection Hd as <-.
Qed.

Lemma getitem_missing df c : c ∉ columns df -> df_getitem df c = Raise (KeyError c).
Proof. intros H%get_loc_None. unfold df_getitem. by rewrite H. Qed.

(** X15. [prepare_data.py] looks Date, Close and Volume up for its
    statistics before the loop, so a file that lacks one of them always
    makes it fail, even with no data row; a file that lacks Open, High or
    Low makes it fail as soon as there is a row. In each case no file is
    written. *)
Theorem export_missing_column df c d :
  c ∈ required_columns ->
  c ∉ columns df ->
  c ∈ ["Date"; "Close"; "Volume"] \/ values df ≠ [] ->
  is_ok (main df d).1 = false /\ files (main df d).2 = files d.
Proof.
  intros Hc Hmiss Hcase. apply failed_preparation.
  destruct (decide (c ∈ ["Date"; "Close"; "Volume"])) as [Hin|Hnot].
  - unfold prepare. rewrite !elem_of_cons, elem_of_nil in Hin.
    destruct Hin as [->|[->|[->|[]]]]; rewrite ?(getitem_missing _ _ Hmiss);
      try done.
    + destruct (df_getitem df "Date" ≫= series_min); [|done].
      by destruct (df_getitem df "Date" ≫= series_max).
    + destruct (df_getitem df "Date" ≫= series_min); [|done].
      destruct (df_getitem df "Date" ≫= series_max); [|done].
      by destruct (df_getitem df "Close" ≫= mapM astype_float).
  - destruct Hcase as [?|Hrows]; [done|].
    apply prepare_fails_with_rows. unfold json_rows, iterrows.
    rewrite enumerate_snd.
    assert (forall cells,
              is_ok (json_row (rows_dtype df)
                       {| s_index := columns df; s_data := cells |}) = false)
      as Hbad.
    { intros cells. unfold json_row.
      pose proof (build_point_missing
                    {| s_index := columns df; s_data := cells |} c Hc Hmiss)
        as Hb.
      unfold build_point in Hb.
      destruct (row_getitem _ "Date") as [x|]; [|done].
      cbn [mbind result_bind] in *.
      destruct (row_getitem _ "Open" ≫= py_float); [|done].
      destruct (row_getitem _ "High" ≫= py_float); [|done].
      destruct (row_getitem _ "Low" ≫= py_float); [|done].
      destruct (row_getitem _ "Close" ≫= py_float); [|done].
      destruct (row_getitem _ "Volume" ≫= py_int); done. }
    unfold rows. destruct (values df) as [|r l]; [done|].
    destruct (rows_dtype _); cbn [fmap list_fmap mapM];
      match goal with
      | |- context [json_row ?k ?row] =>
          pose proof (Hbad (s_data row)) as Hb; cbn [s_data] in Hb;
          destruct (json_row k row); done
      end.
Qed.

(** X16. A file whose every column holds integers, the Date column
    included, breaks the export after the output file was opened: the
    rows come out of [iterrows] as numpy integers, [json.dump] stops at
    the first timestamp with [TypeError], and the output file is left
    with the beginning of a JSON text in place of what it held. *)
Theorem export_numpy_int_breaks_file df data d :
  prepare df = Ok data ->
  rows_dtype df = Int64 ->
  values df ≠ [] ->
  Forall (fun r => length r = length (columns df)) (values df) ->
  (main df d).1 = Raise TypeError
  /\ files (main df d).2 = <[output_file := Incomplete]> (files d).
Proof.
  intros Hprep Hint Hrows Hwf.
  destruct (main_spec df d) as [Hr Hf]. rewrite Hprep in Hr, Hf.
  cbn [mbind result_bind] in Hr. unfold dumped in Hf.
  assert (dumpable data = false) as Hdump.
  { assert (json_rows df = Ok data) as Hjson.
    { unfold prepare in Hprep.
      destruct (df_getitem df "Date" ≫= series_min); [|done].
      destruct (df_getitem df "Date" ≫= series_max); [|done].
      destruct (df_getitem df "Close" ≫= mapM astype_float); [|done].
      destruct (df_getitem df "Volume" ≫= mapM astype_int); done. }
    unfold json_rows, iterrows in Hjson. rewrite enumerate_snd, Hint in Hjson.
    unfold rows_dtype in Hint.
    destruct (forallb (forallb is_int_cell) (values df)) eqn:Hall;
      [|by destruct (forallb (forallb is_num_cell) (values df))].
    unfold rows in Hjson.
    destruct (values df) as [|r l]; [done|]. clear Hrows.
    cbn [fmap list_fmap mapM forallb] in Hjson, Hall.
    apply andb_true_iff in Hall as [Hr0 _].
    inversion Hwf as [|? ? Hlen _]; subst.
    set (row0 := {| s_index := columns df; s_data := r |}) in *.
    destruct (json_row Int64 row0) as [rec|] eqn:Hrec; [|done].
    cbn [mbind result_bind mret result_ret] in Hjson.
    destruct (mapM _ _) as [rest|]; [|done].
    cbn in Hjson. injection Hjson as <-.
    destruct (json_row_timestamp _ _ _ Hrec) as (c & Hc & tl & ->).
    assert (is_int_cell c = true) as Hci.
    { unfold row_getitem, row0 in Hc. cbn [s_index s_data] in Hc.
      destruct (get_loc "Date" (columns df)) as [i|] eqn:Hi; [|done].
      injection Hc as <-. unfold at_pos.
      destruct (r !! i) as [c|] eqn:Hri.
      - cbn. rewrite forallb_forall in Hr0. apply Hr0.
        apply list_elem_of_In. by eapply list_elem_of_lookup_2.
      - apply lookup_ge_None in Hri. apply get_loc_bound in Hi. lia. }
    by destruct c. }
  by rewrite Hdump in Hr, Hf.
Qed.
End JsonExport.

(** ** The further properties on the sample files *)

Lemma request_sizes_any_length_witness :
  exists w',
    ImportIonqToInflux.import_csv_to_influxdb More.rows_2000 Samples.world
    = (Ok tt, w')
    /\ request_sizes Samples.world w' = [1000; 1000]%nat
    /\ attempts (sink w') = 2%nat.
Proof.
  destruct (request_sizes_any_length More.rows_2000 Samples.world
              (points_of More.rows_2000).1) as (w' & Hrun & Hsz & Hat).
  - vm_compute. reflexivity.
  - reflexivity.
  - exists w'. split; [exact Hrun|]. split; [exact Hsz|exact Hat].
Defined.

Lemma to_influx_prints_witness :
  exists w',
    ImportIonqToInflux.import_csv_to_influxdb More.rows_2000 Samples.world
    = (Ok tt, w')
    /\ take 5 (stdout w')
       = [MsgReading ImportIonqToInflux.CSV_FILE; MsgFound 2000;
          MsgImported 1000; MsgImported 2000; MsgSuccess 2000].
Proof.
  destruct (to_influx_prints More.rows_2000 Samples.world
              (points_of More.rows_2000).1) as (w' & Hrun & Hout).
  - vm_compute. reflexivity.
  - reflexivity.
  - exists w'. split; [exact Hrun|]. rewrite Hout. reflexivity.
Defined.

Lemma ionq_requests_and_prints_witness :
  exists w',
    ImportIonq.main More.rows_250 Samples.world = (Ok tt, w')
    /\ attempts (sink w') = 250%nat
    /\ take 4 (stdout w')
       = [MsgLoading 250; MsgImported 100; MsgImported 200; MsgSuccess 250].
Proof.
  destruct (ionq_requests_and_prints More.rows_250 Samples.world
              (points_of More.rows_250).1) as (w' & Hrun & _ & Hat & Hout).
  - vm_compute. reflexivity.
  - reflexivity.
  - exists w'. split; [exact Hrun|]. split; [exact Hat|].
    rewrite Hout. reflexivity.
Defined.

Lemma bad_date_writes_nothing_witness :
  exists e,
    ImportIonqToInflux.import_csv_to_influxdb More.with_bad_date Samples.world
    = (Raise e,
       {| sink := Samples.server;
          stdout := [MsgReading ImportIonqToInflux.CSV_FILE] |})
    /\ ImportIonq.main More.with_bad_date Samples.world
       = (Raise e, Samples.world).
Proof.
  apply (bad_date_writes_nothing More.with_bad_date
           [VStr "2021-01-01"; VStr "2021-01-04"; VStr "soon"] Samples.world).
  - reflexivity.
  - right. right. left. vm_compute. reflexivity.
Defined.

Lemma empty_file_sends_nothing_witness :
  ImportIonq.main More.header_only Samples.world
  = (Ok tt,
     {| sink := asked Samples.server;
        stdout := [MsgLoading 0; MsgSuccess 0] |})
  /\ ImportIonq.main More.header_only Samples.flaky_world
     = (Raise ApiException,
        {| sink := asked Samples.flaky_server;
           stdout := [MsgLoading 0; MsgSuccess 0] |}).
Proof.
  split.
  - destruct (empty_file_sends_nothing More.header_only Samples.world)
      as [Hok _].
    + reflexivity.
    + apply (bool_decide_unpack _). vm_compute. reflexivity.
    + destruct Hok as [_ H]; [discriminate|].
      rewrite H. vm_compute. reflexivity.
  - destruct (empty_file_sends_nothing More.header_only Samples.flaky_world)
      as [_ Hno].
    + reflexivity.
    + apply (bool_decide_unpack _). vm_compute. reflexivity.
    + destruct Hno as [_ H]; [reflexivity|].
      rewrite H. reflexivity.
Defined.

Lemma batching_is_transparent_witness :
  store (sink (ImportIonqToInflux.import_csv_to_influxdb Samples.rows_2500
                 Samples.world).2)
  = foldl put_bucket_point ∅
      ((fun p => (ImportIonqToInflux.INFLUX_BUCKET, p))
         <$> (points_of Samples.rows_2500).1).
Proof.
  destruct (batching_is_transparent Samples.rows_2500 Samples.world
              (points_of Samples.rows_2500).1) as [H _].
  - vm_compute. reflexivity.
  - reflexivity.
  - exact H.
Defined.

Lemma analyze_keeps_other_columns_witness :
  df_getitem
    (default MoreSamples.with_adj_close
       (match AnalyzeIonqLocal.coerce MoreSamples.with_adj_close with
        | Ok df' => Some df' | Raise _ => None end)) "Adj Close"
  = Ok [VFloat 10.25].
Proof.
  rewrite (analyze_keeps_other_columns MoreSamples.with_adj_close).
  - reflexivity.
  - vm_compute. reflexivity.
  - apply (bool_decide_unpack _). vm_compute. reflexivity.
Defined.


Lemma export_is_all_or_nothing_witness :
  is_ok (PrepareData.main MoreSamples.with_bad_low MoreSamples.old_disk).1
  = false
  /\ PrepareData.files
       (PrepareData.main MoreSamples.with_bad_low MoreSamples.old_disk).2
     = PrepareData.files MoreSamples.old_disk.
Proof.
  apply (export_is_all_or_nothing MoreSamples.with_bad_low MoreSamples.old_disk).
  apply Exists_exists.
  exists {| s_index := Samples.header;
            s_data := [VStr "2021-01-04"; VFloat 10.5; VFloat 12.5;
                       VStr "halted"; VFloat 12; VInt 2000] |}.
  split.
  - apply list_elem_of_lookup. exists 1%nat. vm_compute. reflexivity.
  - left. exists "Low", (VStr "halted"). split; [|split].
    + apply (bool_decide_unpack _). vm_compute. reflexivity.
    + reflexivity.
    + vm_compute. reflexivity.
Defined.

Lemma export_holds_every_row_witness :
  exists data,
    PrepareData.files
      (PrepareData.main Samples.latest_first MoreSamples.old_disk).2
    = <[PrepareData.output_file := PrepareData.Complete data]>
        (PrepareData.files MoreSamples.old_disk)
    /\ length data = 2%nat.
Proof.
  destruct (export_holds_every_row Samples.latest_first MoreSamples.old_disk)
    as (data & Hf & Hlen & _).
  - vm_compute. reflexivity.
  - exists data. split; [exact Hf|exact Hlen].
Defined.

Lemma export_agrees_with_import_witness :
  exists data,
    PrepareData.json_rows Samples.latest_first = Ok data
    /\ head <$> data
       = [Some ("timestamp", PrepareData.PyStr "2021-01-04");
          Some ("timestamp", PrepareData.PyStr "2021-01-01")].
Proof.
  destruct (export_agrees_with_import Samples.latest_first
              [VStr "2021-01-04"; VStr "2021-01-01"]
              (points_of Samples.latest_first).1)
    as (data & Hjson & _ & Hts).
  - reflexivity.
  - repeat constructor; by eexists.
  - vm_compute. reflexivity.
  - exists data. split; [exact Hjson|exact Hts].
Defined.

Lemma export_missing_column_witness :
  is_ok (PrepareData.main MoreSamples.header_only_no_close
           MoreSamples.old_disk).1 = false
  /\ PrepareData.files
       (PrepareData.main MoreSamples.header_only_no_close
          MoreSamples.old_disk).2
     = PrepareData.files MoreSamples.old_disk.
Proof.
  apply (export_missing_column MoreSamples.header_only_no_close "Close"
           MoreSamples.old_disk).
  - apply (bool_decide_unpack _). vm_compute. reflexivity.
  - apply (bool_decide_unpack _). vm_compute. reflexivity.
  - left. apply (bool_decide_unpack _). vm_compute. reflexivity.
Defined.

Lemma export_numpy_int_breaks_file_witness :
  (PrepareData.main MoreSamples.all_integers MoreSamples.old_disk).1
  = Raise TypeError
  /\ PrepareData.files
       (PrepareData.main MoreSamples.all_integers MoreSamples.old_disk).2
       !! PrepareData.output_file
     = Some PrepareData.Incomplete.
Proof.
  destruct (export_numpy_int_breaks_file MoreSamples.all_integers
              (default [] (match PrepareData.prepare MoreSamples.all_integers
                           with Ok data => Some data | Raise _ => None end))
              MoreSamples.old_disk) as [Hr Hf].
  - vm_compute. reflexivity.
  - reflexivity.
  - discriminate.
  - repeat constructor.
  - split; [exact Hr|]. rewrite Hf. apply lookup_insert_eq.
Defined.
